(** * Prisma enhanced remediation: the AWS runbooks

    A shallow embedding of the four runbooks under
    [AWS/lambda_package/runbooks]:

    - [AWS-EC2-001.py]  EBS volume does not have a recent snapshot
    - [AWS-RDS-005.py]  RDS database publicly accessible
    - [AWS-ELB-013.py]  enable classic ELB access log
    - [AWS-ELB-015.py]  enable application (elbv2) ELB access log

    A runbook is a Python procedure that talks to the provider through boto3
    clients, prints to standard output and may let an exception escape.  It is
    embedded as a computation in a small state-and-exception monad [M]: the
    state holds the lines printed so far and the provider calls issued so far,
    each with its outcome; the provider's answers are an input (the [Session]).
    Python strings are [string], a dict the runbooks subscript is a record
    whose fields are [option]s (a missing key raises [KeyError]), a list is a
    [list] (an index out of range raises [IndexError]). *)

From Stdlib Require Import String Ascii List ZArith Bool Lia.
Import ListNotations.

Local Open Scope list_scope.
Local Open Scope string_scope.

(** ** Python primitives *)

Module Py.

(** [s.split(sep)] for a one-character separator: every occurrence of
    [sep] cuts, so the result has one more element than [s] has
    separators, and [''.split(sep) == ['']]. *)
Fixpoint split (sep : ascii) (s : string) : list string :=
  match s with
  | EmptyString => [EmptyString]
  | String c rest =>
      if Ascii.eqb c sep then EmptyString :: split sep rest
      else match split sep rest with
           | [] => [String c EmptyString]
           | w :: ws => String c w :: ws
           end
  end.

(** [needle in hay] on strings. *)
Fixpoint contains (needle hay : string) : bool :=
  String.prefix needle hay
  || match hay with
     | EmptyString => false
     | String _ rest => contains needle rest
     end.

(** The error botocore raises when a provider call fails:
    [e.response['Error']] with its machine-readable code and its message.
    The handlers subscript ['Code'] and ['Message'] with no guard; an error
    response without one of them would raise [KeyError] out of the handler
    and is not a value of this type: what is proved of a failed call is
    proved of a failure that carries both. *)
Record ClientError := mkClientError { Code : string; Message : string }.

(** The exceptions the runbooks can meet. *)
Inductive exn : Type :=
| ClientErrorExn (e : ClientError)
| KeyError (key : string)
| IndexError.

Inductive outcome (A : Type) : Type :=
| Returned (a : A)
| Raised (x : exn).
Arguments Returned {A} a.
Arguments Raised {A} x.

End Py.
Export Py.

(** ** JSON documents (the argument of [json.dumps]) *)

#[warnings="-register-all"]
Inductive json : Type :=
| JString (s : string)
| JArray (items : list json)
| JObject (members : list (string * json)).

Fixpoint assoc {A : Type} (k : string) (l : list (string * A)) : option A :=
  match l with
  | [] => None
  | (k', v) :: rest => if String.eqb k k' then Some v else assoc k rest
  end.

Definition member (k : string) (j : json) : option json :=
  match j with
  | JObject ms => assoc k ms
  | _ => None
  end.

(** ** [BucketTemplate.BucketPolicy]

    The class is textually the same in [AWS-ELB-013.py] and [AWS-ELB-015.py].
    Both call it on the class, [BucketTemplate.BucketPolicy(bucket_name,
    account_id, region)], so [self] is bound to the bucket name. *)

Module BucketTemplate.

(** The [if]/[elif] chain that overwrites the initial
    [elb_account_id = '123456789012']. *)
Definition elb_account_id (region : string) : string :=
  if region =? "ap-northeast-1" then "582318560864"
  else if region =? "ap-northeast-2" then "600734575887"
  else if region =? "ap-northeast-3" then "383597477331"
  else if region =? "ap-south-1" then "718504428378"
  else if region =? "ap-southeast-1" then "114774131450"
  else if region =? "ap-southeast-2" then "783225319266"
  else if region =? "ca-central-1" then "985666609251"
  else if region =? "eu-central-1" then "054676820928"
  else if region =? "eu-west-1" then "156460612806"
  else if region =? "eu-west-2" then "652711504416"
  else if region =? "eu-west-3" then "009996457667"
  else if region =? "sa-east-1" then "507241528517"
  else if region =? "us-east-1" then "127311923021"
  else if region =? "us-east-2" then "033677994240"
  else if region =? "us-west-1" then "027434742980"
  else if region =? "us-west-2" then "797873946194"
  else "123456789012".

Definition BucketPolicy (self account_id region : string) : json :=
  JObject
    [ ("Version", JString "2012-10-17");
      ("Statement", JArray
        [ JObject
            [ ("Sid", JString "ELBLoggingPolicy");
              ("Effect", JString "Allow");
              ("Principal", JObject
                 [ ("AWS", JString ("arn:aws:iam::" ++ elb_account_id region ++ ":root")) ]);
              ("Action", JString "s3:PutObject");
              ("Resource", JString ("arn:aws:s3:::" ++ self ++ "/*/AWSLogs/" ++ account_id ++ "/*")) ];
          JObject
            [ ("Effect", JString "Allow");
              ("Principal", JObject
                 [ ("Service", JString "delivery.logs.amazonaws.com") ]);
              ("Action", JString "s3:PutObject");
              ("Resource", JString ("arn:aws:s3:::" ++ self ++ "/*/AWSLogs/" ++ account_id ++ "/*"));
              ("Condition", JObject
                 [ ("StringEquals", JObject
                      [ ("s3:x-amz-acl", JString "bucket-owner-full-control") ]) ]) ];
          JObject
            [ ("Effect", JString "Allow");
              ("Principal", JObject
                 [ ("Service", JString "delivery.logs.amazonaws.com") ]);
              ("Action", JString "s3:GetBucketAcl");
              ("Resource", JString ("arn:aws:s3:::" ++ self)) ] ]) ].

(** The region codes the chain names, with the account id of each. *)
Definition documented_accounts : list (string * string) :=
  [ ("ap-northeast-1", "582318560864"); ("ap-northeast-2", "600734575887");
    ("ap-northeast-3", "383597477331"); ("ap-south-1", "718504428378");
    ("ap-southeast-1", "114774131450"); ("ap-southeast-2", "783225319266");
    ("ca-central-1", "985666609251"); ("eu-central-1", "054676820928");
    ("eu-west-1", "156460612806"); ("eu-west-2", "652711504416");
    ("eu-west-3", "009996457667"); ("sa-east-1", "507241528517");
    ("us-east-1", "127311923021"); ("us-east-2", "033677994240");
    ("us-west-1", "027434742980"); ("us-west-2", "797873946194") ].

(** Reading a policy document back. *)
Definition statements (policy : json) : list json :=
  match member "Statement" policy with
  | Some (JArray l) => l
  | _ => []
  end.

(** The [Principal.AWS] entry of the statement with Sid [ELBLoggingPolicy]:
    the principal the policy trusts for log delivery. *)
Definition trusted_principal (policy : json) : option json :=
  match statements policy with
  | s :: _ =>
      match member "Principal" s with
      | Some p => member "AWS" p
      | None => None
      end
  | [] => None
  end.

Definition root_arn (account : string) : json :=
  JString ("arn:aws:iam::" ++ account ++ ":root").

End BucketTemplate.

(** ** What the provider is asked and what it answers *)

(** [{'Name': ..., 'Values': [...]}] in a [Filters] argument. *)
Record Filter := mkFilter { filter_Name : string; filter_Values : list string }.

(** The [AccessLog] argument of the classic [modify_load_balancer_attributes]. *)
Record AccessLogSetting := mkAccessLogSetting {
  set_Enabled : bool;
  set_S3BucketName : string;
  set_EmitInterval : Z;
  set_S3BucketPrefix : string
}.

(** A provider call with its keyword arguments.  [S3_PutObject] is sent
    without a [Body], which stores an object of zero bytes; the policy of
    [S3_PutBucketPolicy] is kept as the document handed to [json.dumps]. *)
Inductive Call : Type :=
| EC2_DescribeSnapshots (Filters : list Filter)
| EC2_CreateSnapshot (VolumeId Description : string)
| RDS_DescribeDBInstances (Filters : list Filter)
| RDS_ModifyDBInstance (DBInstanceIdentifier : string) (PubliclyAccessible : bool)
| ELB_DescribeLoadBalancerAttributes (LoadBalancerName : string)
| ELB_ModifyLoadBalancerAttributes (LoadBalancerName : string) (AccessLog : AccessLogSetting)
| STS_GetCallerIdentity
| S3_CreateBucket (ACL Bucket : string) (LocationConstraint : option string)
| S3_PutObject (Bucket Key : string)
| S3_PutBucketPolicy (Bucket : string) (Policy : json)
| ELBv2_DescribeLoadBalancers (Names : list string)
| ELBv2_DescribeLoadBalancerAttributes (LoadBalancerArn : string)
| ELBv2_ModifyLoadBalancerAttributes (LoadBalancerArn : string) (Attributes : list (string * string)).

(** The calls that change something at the provider; the others only read. *)
Definition mutating (c : Call) : bool :=
  match c with
  | EC2_CreateSnapshot _ _
  | RDS_ModifyDBInstance _ _
  | ELB_ModifyLoadBalancerAttributes _ _
  | S3_CreateBucket _ _ _
  | S3_PutObject _ _
  | S3_PutBucketPolicy _ _
  | ELBv2_ModifyLoadBalancerAttributes _ _ => true
  | _ => false
  end.

Definition creates_bucket (c : Call) : bool :=
  match c with S3_CreateBucket _ _ _ => true | _ => false end.

Definition modifies_attributes (c : Call) : bool :=
  match c with
  | ELB_ModifyLoadBalancerAttributes _ _
  | ELBv2_ModifyLoadBalancerAttributes _ _ => true
  | _ => false
  end.

(** The provider either answers or fails with a [ClientError]; a client
    method is taken to raise nothing else. *)
Inductive answer (A : Type) : Type :=
| Success (a : A)
| Failure (e : ClientError).
Arguments Success {A} a.
Arguments Failure {A} e.

(** One provider call as the invocation saw it. *)
Inductive Event : Type :=
| Succeeded (c : Call)
| Failed (c : Call) (e : ClientError).

Definition call_of (ev : Event) : Call :=
  match ev with Succeeded c => c | Failed c _ => c end.

(** ** The monad of a runbook *)

Record State := mkState { log : list string; trace : list Event }.

Definition M (A : Type) : Type := State -> outcome A * State.

Definition ret {A : Type} (a : A) : M A := fun st => (Returned a, st).

Definition bind {A B : Type} (m : M A) (k : A -> M B) : M B :=
  fun st =>
    match m st with
    | (Returned a, st') => k a st'
    | (Raised x, st') => (Raised x, st')
    end.

Definition raise {A : Type} (x : exn) : M A := fun st => (Raised x, st).

Notation "x <- m ;; k" := (bind m (fun x => k))
  (at level 61, m at next level, right associativity).
Notation "m ;; k" := (bind m (fun _ => k))
  (at level 61, right associativity).

(** [print(line)] *)
Definition print (line : string) : M unit :=
  fun st => (Returned tt, mkState (log st ++ [line])%list (trace st)).

(** A boto3 client method: the call is recorded with its outcome, and a
    failure is raised as [ClientError]. *)
Definition invoke {A : Type} (c : Call) (a : answer A) : M A :=
  fun st =>
    match a with
    | Success r => (Returned r, mkState (log st) (trace st ++ [Succeeded c])%list)
    | Failure e => (Raised (ClientErrorExn e), mkState (log st) (trace st ++ [Failed c e])%list)
    end.

(** [try: body] with [except ClientError as e]: the handler gets [Failure e];
    any other exception goes through. *)
Definition try_ {A : Type} (body : M A) : M (answer A) :=
  fun st =>
    match body st with
    | (Returned a, st') => (Returned (Success a), st')
    | (Raised (ClientErrorExn e), st') => (Returned (Failure e), st')
    | (Raised x, st') => (Raised x, st')
    end.

(** [try: body] with [except (KeyError, IndexError)]: [None] when one of the
    two was raised; a [ClientError] goes through. *)
Definition try_lookup {A : Type} (body : M A) : M (option A) :=
  fun st =>
    match body st with
    | (Returned a, st') => (Returned (Some a), st')
    | (Raised (ClientErrorExn e), st') => (Raised (ClientErrorExn e), st')
    | (Raised _, st') => (Returned None, st')
    end.

(** [d[key]] on a dict whose entry may be missing. *)
Definition subscript {A : Type} (key : string) (entry : option A) : M A :=
  match entry with
  | Some a => ret a
  | None => raise (KeyError key)
  end.

(** [l[i]] on a list. *)
Definition index {A : Type} (l : list A) (i : nat) : M A :=
  match nth_error l i with
  | Some a => ret a
  | None => raise IndexError
  end.

(** What an invocation leaves behind. *)
Record Run := mkRun {
  result : outcome unit;
  printed : list string;
  events : list Event
}.

Definition exec (m : M unit) : Run :=
  let '(r, st) := m (mkState [] []) in mkRun r (log st) (trace st).

Definition calls (r : Run) : list Call := map call_of (events r).

(** ** The boto3 clients

    A client is the provider seen from one service in one region: for each
    method the runbooks use, the answer to a request.  Only the response
    entries the runbooks read are kept. *)

Module ec2.
(** [StartTime] is a [datetime]; [date_of] is its [.date()], kept as the
    proleptic Gregorian ordinal of the day. *)
Record datetime := mkDatetime { date_of : Z; seconds_of_day : Z }.
Record Snapshot := mkSnapshot { StartTime : option datetime }.
Record DescribeSnapshotsResult := mkDescribeSnapshotsResult { Snapshots : option (list Snapshot) }.
Record CreateSnapshotResult := mkCreateSnapshotResult { SnapshotId : option string }.
Record client := mkClient {
  on_describe_snapshots : list Filter -> answer DescribeSnapshotsResult;
  on_create_snapshot : string -> string -> answer CreateSnapshotResult
}.
Definition describe_snapshots (c : client) (Filters : list Filter) : M DescribeSnapshotsResult :=
  invoke (EC2_DescribeSnapshots Filters) (on_describe_snapshots c Filters).
Definition create_snapshot (c : client) (VolumeId Description : string) : M CreateSnapshotResult :=
  invoke (EC2_CreateSnapshot VolumeId Description) (on_create_snapshot c VolumeId Description).
End ec2.

Module rds.
Record DBInstance := mkDBInstance {
  PubliclyAccessible : option bool;
  DBInstanceIdentifier : option string
}.
Record DescribeDBInstancesResult := mkDescribeDBInstancesResult { DBInstances : option (list DBInstance) }.
Record client := mkClient {
  on_describe_db_instances : list Filter -> answer DescribeDBInstancesResult;
  on_modify_db_instance : string -> bool -> answer unit
}.
Definition describe_db_instances (c : client) (Filters : list Filter) : M DescribeDBInstancesResult :=
  invoke (RDS_DescribeDBInstances Filters) (on_describe_db_instances c Filters).
Definition modify_db_instance (c : client) (DBInstanceIdentifier : string) (PubliclyAccessible : bool) : M unit :=
  invoke (RDS_ModifyDBInstance DBInstanceIdentifier PubliclyAccessible)
         (on_modify_db_instance c DBInstanceIdentifier PubliclyAccessible).
End rds.

Module elb.
Record AccessLog := mkAccessLog { Enabled : option bool }.
Record LoadBalancerAttributes := mkLoadBalancerAttributes { AccessLog_of : option AccessLog }.
Record DescribeResult := mkDescribeResult { LoadBalancerAttributes_of : option LoadBalancerAttributes }.
Record client := mkClient {
  on_describe_load_balancer_attributes : string -> answer DescribeResult;
  on_modify_load_balancer_attributes : string -> AccessLogSetting -> answer unit
}.
Definition describe_load_balancer_attributes (c : client) (LoadBalancerName : string) : M DescribeResult :=
  invoke (ELB_DescribeLoadBalancerAttributes LoadBalancerName)
         (on_describe_load_balancer_attributes c LoadBalancerName).
Definition modify_load_balancer_attributes (c : client) (LoadBalancerName : string)
    (AccessLog : AccessLogSetting) : M unit :=
  invoke (ELB_ModifyLoadBalancerAttributes LoadBalancerName AccessLog)
         (on_modify_load_balancer_attributes c LoadBalancerName AccessLog).
End elb.

Module sts.
Record CallerIdentity := mkCallerIdentity { Account : option string }.
Record client := mkClient { on_get_caller_identity : answer CallerIdentity }.
Definition get_caller_identity (c : client) : M CallerIdentity :=
  invoke STS_GetCallerIdentity (on_get_caller_identity c).
End sts.

Module s3.
Record client := mkClient {
  on_create_bucket : string -> string -> option string -> answer unit;
  on_put_object : string -> string -> answer unit;
  on_put_bucket_policy : string -> json -> answer unit
}.
Definition create_bucket (c : client) (ACL Bucket : string) (LocationConstraint : option string) : M unit :=
  invoke (S3_CreateBucket ACL Bucket LocationConstraint) (on_create_bucket c ACL Bucket LocationConstraint).
Definition put_object (c : client) (Bucket Key : string) : M unit :=
  invoke (S3_PutObject Bucket Key) (on_put_object c Bucket Key).
Definition put_bucket_policy (c : client) (Bucket : string) (Policy : json) : M unit :=
  invoke (S3_PutBucketPolicy Bucket Policy) (on_put_bucket_policy c Bucket Policy).
End s3.

Module elbv2.
Record LoadBalancer := mkLoadBalancer { LoadBalancerArn : option string }.
Record DescribeLoadBalancersResult := mkDescribeLoadBalancersResult {
  LoadBalancers : option (list LoadBalancer)
}.
Record Attribute := mkAttribute { Key : option string; Value : option string }.
Record DescribeAttributesResult := mkDescribeAttributesResult { Attributes : option (list Attribute) }.
Record client := mkClient {
  on_describe_load_balancers : list string -> answer DescribeLoadBalancersResult;
  on_describe_load_balancer_attributes : string -> answer DescribeAttributesResult;
  on_modify_load_balancer_attributes : string -> list (string * string) -> answer unit
}.
Definition describe_load_balancers (c : client) (Names : list string) : M DescribeLoadBalancersResult :=
  invoke (ELBv2_DescribeLoadBalancers Names) (on_describe_load_balancers c Names).
Definition describe_load_balancer_attributes (c : client) (LoadBalancerArn : string) : M DescribeAttributesResult :=
  invoke (ELBv2_DescribeLoadBalancerAttributes LoadBalancerArn)
         (on_describe_load_balancer_attributes c LoadBalancerArn).
Definition modify_load_balancer_attributes (c : client) (LoadBalancerArn : string)
    (Attributes : list (string * string)) : M unit :=
  invoke (ELBv2_ModifyLoadBalancerAttributes LoadBalancerArn Attributes)
         (on_modify_load_balancer_attributes c LoadBalancerArn Attributes).
End elbv2.

(** [session.client(service, region_name=region)] for the six services;
    making a client is taken to succeed.  boto3 refuses a region name that
    is no host label with [InvalidRegionError], before any call: an
    invocation on such an alert is not a run of this model, and what is
    proved from the answer to a call, or from a call in the events of a run,
    is proved of invocations whose clients were made. *)
Record Session := mkSession {
  client_ec2 : string -> ec2.client;
  client_rds : string -> rds.client;
  client_elb : string -> elb.client;
  client_sts : string -> sts.client;
  client_s3 : string -> s3.client;
  client_elbv2 : string -> elbv2.client
}.

(** The alert handed over by [index_prisma.py]. *)
Record Alert := mkAlert { resource_id : string; region : string }.

(** ** AWS-EC2-001.py *)

Module EC2_001.

Definition snapshot_age : Z := 15.

Definition new_ebs_snapshot (ec2 : ec2.client) (volume_id : string) : M unit :=
  r <- try_ (response <- ec2.create_snapshot ec2 volume_id "Autoremediate snapshot" ;;
             snapshot_id <- subscript "SnapshotId" (ec2.SnapshotId response) ;;
             print ("New snapshot " ++ snapshot_id ++ " created for EBS Volume " ++ volume_id ++ ".")) ;;
  match r with
  | Success _ => ret tt
  | Failure e => print (Message e)
  end.

(** [today] is what [date.today()] answers, as an ordinal. *)
Definition remediate (session : Session) (alert : Alert) (today : Z) : M unit :=
  let volume_id := resource_id alert in
  let region := region alert in
  let ec2 := client_ec2 session region in
  r <- try_ (response <- ec2.describe_snapshots ec2 [mkFilter "volume-id" [volume_id]] ;;
             subscript "Snapshots" (ec2.Snapshots response)) ;;
  match r with
  | Failure e => print (Message e)
  | Success snapshot =>
      snapshot_needed <-
        (if (0 <? length snapshot)%nat then
           first <- index snapshot 0 ;;
           start <- subscript "StartTime" (ec2.StartTime first) ;;
           let snap_date := ec2.date_of start in
           let delta := (today - snap_date)%Z in
           ret (delta >=? snapshot_age)%Z
         else ret true) ;;
      if snapshot_needed : bool then new_ebs_snapshot ec2 volume_id else ret tt
  end.

End EC2_001.

(** ** AWS-RDS-005.py *)

Module RDS_005.

Definition remediate (session : Session) (alert : Alert) : M unit :=
  let resource_id := resource_id alert in
  let region := region alert in
  let rds := client_rds session region in
  r <- try_ (response <- rds.describe_db_instances rds [mkFilter "dbi-resource-id" [resource_id]] ;;
             subscript "DBInstances" (rds.DBInstances response)) ;;
  match r with
  | Failure e => print (Message e)
  | Success db_instance =>
      looked_up <- try_lookup (first <- index db_instance 0 ;;
                               subscript "PubliclyAccessible" (rds.PubliclyAccessible first)) ;;
      let public := match looked_up with Some flag => flag | None => false end in
      if public then
        first <- index db_instance 0 ;;
        instance_id <- subscript "DBInstanceIdentifier" (rds.DBInstanceIdentifier first) ;;
        r <- try_ (rds.modify_db_instance rds instance_id false) ;;
        match r with
        | Failure e => print (Message e)
        | Success _ => print ("Removed public attribute from RDS instance " ++ instance_id ++ ".")
        end
      else ret tt
  end.

End RDS_005.

(** ** The bucket of the two load-balancer runbooks

    [new_s3_bucket] of [AWS-ELB-013.py] and of [AWS-ELB-015.py] differ in the
    literal the bucket name starts with and in nothing else; [prefix] is that
    literal. *)

Module Bucket.

Definition new_s3_bucket (prefix : string) (s3 : s3.client)
    (elb_name account_id region : string) : M string :=
  let bucket_name := prefix ++ account_id ++ "-" ++ region in
  let folder_and_policy : M string :=
    (* Create ELB folder/ prefix *)
    r <- try_ (s3.put_object s3 bucket_name (elb_name ++ "/")) ;;
    match r with
    | Failure e => print (Message e) ;; ret "fail"
    | Success _ =>
        (* Create ELB logging policy *)
        r <- try_ (s3.put_bucket_policy s3 bucket_name
                     (BucketTemplate.BucketPolicy bucket_name account_id region)) ;;
        match r with
        | Failure e =>
            (if contains "Invalid principal" (Message e)
             then print ("Invalid principal: Check the AWS ELB Account Id for the " ++ region ++ " region.")
             else print (Message e)) ;;
            ret "fail"
        | Success _ => ret bucket_name
        end
    end in
  r <- try_ ((if region =? "us-east-1"
              then s3.create_bucket s3 "private" bucket_name None
              else s3.create_bucket s3 "private" bucket_name (Some region)) ;;
             print ("New S3 bucket created: " ++ bucket_name)) ;;
  match r with
  | Success _ => folder_and_policy
  | Failure e =>
      if Code e =? "BucketAlreadyExists" then
        print ("Using existing S3 bucket: " ++ bucket_name) ;; folder_and_policy
      else if Code e =? "BucketAlreadyOwnedByYou" then
        print ("Using already owned and existing S3 bucket: " ++ bucket_name) ;; folder_and_policy
      else
        print (Message e) ;; ret "fail"
  end.

End Bucket.

(** ** AWS-ELB-013.py *)

Module ELB_013.

Definition enable_access_log (elb : elb.client) (elb_name bucket_name region : string) : M unit :=
  r <- try_ (elb.modify_load_balancer_attributes elb elb_name
               (mkAccessLogSetting true bucket_name 60 elb_name)) ;;
  match r with
  | Failure e =>
      if contains "Access Denied" (Message e)
      then print ("Access Denied: Check the AWS ELB Account Id for the " ++ region ++ " region.")
      else print (Message e)
  | Success _ => print ("Enabled Access Log for ELB " ++ elb_name ++ ".")
  end.

Definition new_s3_bucket : s3.client -> string -> string -> string -> M string :=
  Bucket.new_s3_bucket "elblogs-".

Definition get_account_id (sts : sts.client) : M string :=
  r <- try_ (response <- sts.get_caller_identity sts ;;
             subscript "Account" (sts.Account response)) ;;
  match r with
  | Failure e => print (Message e) ;; ret "fail"
  | Success account_id => ret account_id
  end.

Definition remediate (session : Session) (alert : Alert) : M unit :=
  let arn := resource_id alert in
  elb_name <- index (split "/" arn) 1 ;;
  let region := region alert in
  let elb := client_elb session region in
  let s3 := client_s3 session region in
  let sts := client_sts session region in
  r <- try_ (response <- elb.describe_load_balancer_attributes elb elb_name ;;
             subscript "LoadBalancerAttributes" (elb.LoadBalancerAttributes_of response)) ;;
  match r with
  | Failure e => print (Message e)
  | Success attribs =>
      logging <- subscript "AccessLog" (elb.AccessLog_of attribs) ;;
      enabled <- subscript "Enabled" (elb.Enabled logging) ;;
      if negb (Bool.eqb enabled true) then
        account_id <- get_account_id sts ;;
        bucket_name <- (if negb (account_id =? "fail")
                        then new_s3_bucket s3 elb_name account_id region
                        else ret "fail") ;;
        if negb (bucket_name =? "fail")
        then enable_access_log elb elb_name bucket_name region
        else ret tt
      else ret tt
  end.

End ELB_013.

(** ** AWS-ELB-015.py *)

Module ELB_015.

Definition enable_access_log (elbv2 : elbv2.client)
    (elb_arn elb_name bucket_name region : string) : M unit :=
  r <- try_ (elbv2.modify_load_balancer_attributes elbv2 elb_arn
               [ ("access_logs.s3.enabled", "true");
                 ("access_logs.s3.bucket", bucket_name);
                 ("access_logs.s3.prefix", elb_name) ]) ;;
  match r with
  | Failure e =>
      if contains "Access Denied" (Message e)
      then print ("Access Denied: Check the AWS ELB Account Id for the " ++ region ++ " region.")
      else print (Message e)
  | Success _ => print ("Enabled Access Log for Application ELB " ++ elb_name ++ ".")
  end.

Definition new_s3_bucket : s3.client -> string -> string -> string -> M string :=
  Bucket.new_s3_bucket "elbv2logs-".

(** The [for attrib in attribs] loop of [remediate]; [logging] is the
    variable it updates. *)
Fixpoint for_attrib_in (attribs : list elbv2.Attribute) (logging : string) : M string :=
  match attribs with
  | [] => ret logging
  | attrib :: rest =>
      key <- subscript "Key" (elbv2.Key attrib) ;;
      if key =? "access_logs.s3.enabled" then
        value <- subscript "Value" (elbv2.Value attrib) ;;
        for_attrib_in rest value
      else for_attrib_in rest logging
  end.

Definition remediate (session : Session) (alert : Alert) : M unit :=
  let arn := resource_id alert in
  elb_name <- index (split "/" arn) 2 ;;
  let region := region alert in
  let elbv2 := client_elbv2 session region in
  let s3 := client_s3 session region in
  r <- try_ (response <- elbv2.describe_load_balancers elbv2 [elb_name] ;;
             subscript "LoadBalancers" (elbv2.LoadBalancers response)) ;;
  match r with
  | Failure e => print (Message e)
  | Success elb =>
      looked_up <- try_lookup (first <- index elb 0 ;;
                               subscript "LoadBalancerArn" (elbv2.LoadBalancerArn first)) ;;
      match looked_up with
      | None => print ("Error: Unable to find the ARN for Application ELB " ++ elb_name ++ ".")
      | Some elb_arn =>
          account_id <- index (split ":" elb_arn) 4 ;;
          r <- try_ (response <- elbv2.describe_load_balancer_attributes elbv2 elb_arn ;;
                     subscript "Attributes" (elbv2.Attributes response)) ;;
          match r with
          | Failure e => print (Message e)
          | Success attribs =>
              logging <- for_attrib_in attribs "none" ;;
              if negb (logging =? "true") then
                bucket_name <- new_s3_bucket s3 elb_name account_id region ;;
                if negb (bucket_name =? "fail")
                then enable_access_log elbv2 elb_arn elb_name bucket_name region
                else ret tt
              else ret tt
          end
      end
  end.

End ELB_015.

(** ** The four entry points *)

Inductive Runbook : Type := AWS_EC2_001 | AWS_RDS_005 | AWS_ELB_013 | AWS_ELB_015.

(** One invocation of a runbook from nothing printed and nothing called. *)
Definition run (rb : Runbook) (session : Session) (alert : Alert) (today : Z) : Run :=
  exec match rb with
       | AWS_EC2_001 => EC2_001.remediate session alert today
       | AWS_RDS_005 => RDS_005.remediate session alert
       | AWS_ELB_013 => ELB_013.remediate session alert
       | AWS_ELB_015 => ELB_015.remediate session alert
       end.

(** * Vocabulary of the statements, and sample provider answers *)

(** *** Reading the bucket policy *)

(** Effect, principal, action and resource of a policy statement. *)
Definition grant (statement : json) : option json * option json * option json * option json :=
  (member "Effect" statement, member "Principal" statement,
   member "Action" statement, member "Resource" statement).

(** The account id the table has for a region, and the account id
    [BucketPolicy] starts from for a region the table does not have. *)
Definition account_or_placeholder (region : string) : string :=
  match assoc region BucketTemplate.documented_accounts with
  | Some id => id
  | None => "123456789012"
  end.

(** *** Calls of a run *)

Definition attempted (p : Call -> bool) (r : Run) : bool := existsb p (calls r).

Definition succeeded (p : Call -> bool) (r : Run) : bool :=
  existsb (fun ev => match ev with Succeeded c => p c | Failed _ _ => false end) (events r).

Definition creates_snapshot (c : Call) : bool :=
  match c with EC2_CreateSnapshot _ _ => true | _ => false end.

Definition modifies_instance (c : Call) : bool :=
  match c with RDS_ModifyDBInstance _ _ => true | _ => false end.

(** The creation date of the most recently created snapshot of a response,
    when every snapshot carries one and there is at least one. *)
Fixpoint latest_date (snapshots : list ec2.Snapshot) : option Z :=
  match snapshots with
  | [] => None
  | s :: rest =>
      match ec2.StartTime s, rest with
      | None, _ => None
      | Some t, [] => Some (ec2.date_of t)
      | Some t, _ :: _ =>
          match latest_date rest with
          | Some d => Some (Z.max (ec2.date_of t) d)
          | None => None
          end
      end
  end.

Module Sample.

Definition denied : ClientError :=
  mkClientError "AccessDenied" "User is not authorized to perform this operation".

Definition ec2_listing (snapshots : answer ec2.DescribeSnapshotsResult) : ec2.client :=
  ec2.mkClient (fun _ => snapshots)
               (fun _ _ => Success (ec2.mkCreateSnapshotResult (Some "snap-0new"))).

Definition rds_listing (instances : answer rds.DescribeDBInstancesResult) : rds.client :=
  rds.mkClient (fun _ => instances) (fun _ _ => Success tt).

Definition elb_reporting (enabled : bool) : elb.client :=
  elb.mkClient
    (fun _ => Success (elb.mkDescribeResult
                         (Some (elb.mkLoadBalancerAttributes
                                  (Some (elb.mkAccessLog (Some enabled)))))))
    (fun _ _ => Success tt).

Definition sts_account : sts.client :=
  sts.mkClient (Success (sts.mkCallerIdentity (Some "111122223333"))).

Definition s3_answering (creation : answer unit) : s3.client :=
  s3.mkClient (fun _ _ _ => creation) (fun _ _ => Success tt) (fun _ _ => Success tt).

Definition myelb_arn : string :=
  "arn:aws:elasticloadbalancing:us-west-2:111122223333:loadbalancer/app/myelb/abc123".

Definition elbv2_reporting (attributes : answer elbv2.DescribeAttributesResult) : elbv2.client :=
  elbv2.mkClient
    (fun _ => Success (elbv2.mkDescribeLoadBalancersResult
                         (Some [elbv2.mkLoadBalancer (Some myelb_arn)])))
    (fun _ => attributes)
    (fun _ _ => Success tt).

Definition enabled_is (value : string) : answer elbv2.DescribeAttributesResult :=
  Success (elbv2.mkDescribeAttributesResult
             (Some [elbv2.mkAttribute (Some "access_logs.s3.enabled") (Some value)])).

(** A provider where nothing needs remediation and every call succeeds;
    the other samples change one client of it. *)
Definition quiet : Session :=
  mkSession (fun _ => ec2_listing (Success (ec2.mkDescribeSnapshotsResult (Some []))))
            (fun _ => rds_listing (Success (rds.mkDescribeDBInstancesResult (Some []))))
            (fun _ => elb_reporting true)
            (fun _ => sts_account)
            (fun _ => s3_answering (Success tt))
            (fun _ => elbv2_reporting (enabled_is "true")).

Definition with_ec2 (c : ec2.client) (s : Session) : Session :=
  mkSession (fun _ => c) (client_rds s) (client_elb s) (client_sts s) (client_s3 s) (client_elbv2 s).
Definition with_rds (c : rds.client) (s : Session) : Session :=
  mkSession (client_ec2 s) (fun _ => c) (client_elb s) (client_sts s) (client_s3 s) (client_elbv2 s).
Definition with_elb (c : elb.client) (s : Session) : Session :=
  mkSession (client_ec2 s) (client_rds s) (fun _ => c) (client_sts s) (client_s3 s) (client_elbv2 s).
Definition with_s3 (c : s3.client) (s : Session) : Session :=
  mkSession (client_ec2 s) (client_rds s) (client_elb s) (client_sts s) (fun _ => c) (client_elbv2 s).
Definition with_elbv2 (c : elbv2.client) (s : Session) : Session :=
  mkSession (client_ec2 s) (client_rds s) (client_elb s) (client_sts s) (client_s3 s) (fun _ => c).

Definition volume_alert : Alert := mkAlert "vol-0abc" "us-east-1".
Definition database_alert : Alert := mkAlert "db-ABCDEFGHIJKLMNOPQRSTUVWXYZ" "eu-west-1".
Definition classic_alert : Alert :=
  mkAlert "arn:aws:elasticloadbalancing:us-west-2:111122223333:loadbalancer/myelb" "us-west-2".
Definition v2_alert : Alert := mkAlert myelb_arn "us-west-2".

Definition snapshot_on (day : Z) : ec2.Snapshot :=
  ec2.mkSnapshot (Some (ec2.mkDatetime day 0)).

(** A volume whose response lists a snapshot of twenty days ago before one
    of yesterday; today is day 738200. *)
Definition stale_listed_first : Session :=
  with_ec2 (ec2_listing (Success (ec2.mkDescribeSnapshotsResult
                                    (Some [snapshot_on 738180; snapshot_on 738199]))))
           quiet.

(** A public instance whose record lacks [DBInstanceIdentifier]. *)
Definition public_unnamed : Session :=
  with_rds (rds_listing (Success (rds.mkDescribeDBInstancesResult
                                    (Some [rds.mkDBInstance (Some true) None]))))
           quiet.

Definition public_named : Session :=
  with_rds (rds_listing (Success (rds.mkDescribeDBInstancesResult
                                    (Some [rds.mkDBInstance (Some true) (Some "mydb")]))))
           quiet.

Definition describe_denied : Session :=
  with_ec2 (ec2_listing (Failure denied)) quiet.

Definition owned : ClientError :=
  mkClientError "BucketAlreadyOwnedByYou"
    "Your previous request to create the named bucket succeeded and you already own it.".

(** The classic load balancer has logging off. *)
Definition logging_off : Session := with_elb (elb_reporting false) quiet.

(** Logging off, and the bucket is there from an earlier invocation. *)
Definition bucket_owned : Session := with_s3 (s3_answering (Failure owned)) logging_off.

(** Logging off, and the bucket may not be created. *)
Definition creation_denied : Session := with_s3 (s3_answering (Failure denied)) logging_off.

(** The v2 load balancer reports [access_logs.s3.enabled = false]. *)
Definition logging_disabled : Session :=
  with_elbv2 (elbv2_reporting (enabled_is "false")) quiet.

(** The v2 load balancer reports no attribute at all. *)
Definition attribute_missing : Session :=
  with_elbv2 (elbv2_reporting (Success (elbv2.mkDescribeAttributesResult (Some [])))) quiet.

End Sample.

(** *** Attribute entries a runbook can read *)

(** The entry has its [Key], and its [Value] when the key is
    [access_logs.s3.enabled]. *)
Definition readable_attribute (a : elbv2.Attribute) : Prop :=
  exists key,
    elbv2.Key a = Some key
    /\ (key = "access_logs.s3.enabled" -> elbv2.Value a <> None).

(** *** The precondition of a remediation is not met *)

(** The lookup answers, with no record or with a first record that lacks
    the entry the runbook decides on. *)
Definition nothing_to_decide_on (rb : Runbook) (session : Session) (alert : Alert) : Prop :=
  match rb with
  | AWS_RDS_005 =>
      exists response instances,
        rds.on_describe_db_instances (client_rds session (region alert))
          [mkFilter "dbi-resource-id" [resource_id alert]] = Success response
        /\ rds.DBInstances response = Some instances
        /\ match instances with
           | [] => True
           | first :: _ => rds.PubliclyAccessible first = None
           end
  | AWS_ELB_015 =>
      exists elb_name response balancers,
        nth_error (split "/" (resource_id alert)) 2 = Some elb_name
        /\ elbv2.on_describe_load_balancers (client_elbv2 session (region alert))
             [elb_name] = Success response
        /\ elbv2.LoadBalancers response = Some balancers
        /\ match balancers with
           | [] => True
           | first :: _ => elbv2.LoadBalancerArn first = None
           end
  | AWS_EC2_001 | AWS_ELB_013 => False
  end.

(** *** Bucket provisioning *)

Definition puts_object (c : Call) : bool :=
  match c with S3_PutObject _ _ => true | _ => false end.

Definition puts_policy (c : Call) : bool :=
  match c with S3_PutBucketPolicy _ _ => true | _ => false end.

Definition provisions (c : Call) : bool :=
  creates_bucket c || puts_object c || puts_policy c.

(** A bucket creation refused because the bucket is there already. *)
Definition bucket_was_there (c : Call) (e : ClientError) : bool :=
  creates_bucket c
  && ((Code e =? "BucketAlreadyExists") || (Code e =? "BucketAlreadyOwnedByYou")).

(** [CreateBucketConfiguration] is left out in us-east-1. *)
Definition location_of (region : string) : option string :=
  if region =? "us-east-1" then None else Some region.

(** *** Access logging as the provider reports it *)

(** The last entry of the attribute list with key [access_logs.s3.enabled]
    has the value [true]. *)
Definition last_enabled_is_true (attribs : list elbv2.Attribute) : Prop :=
  exists before after,
    attribs = (before ++ elbv2.mkAttribute (Some "access_logs.s3.enabled") (Some "true") :: after)%list
    /\ Forall (fun a => elbv2.Key a <> Some "access_logs.s3.enabled") after.

(** [c] is the describe-attributes call of a load-balancer runbook and the
    provider's answer to it says that access logging is enabled. *)
Definition reports_logging_enabled (session : Session) (alert : Alert) (c : Call) : Prop :=
  match c with
  | ELB_DescribeLoadBalancerAttributes name =>
      exists response attribs logging,
        elb.on_describe_load_balancer_attributes (client_elb session (region alert)) name
          = Success response
        /\ elb.LoadBalancerAttributes_of response = Some attribs
        /\ elb.AccessLog_of attribs = Some logging
        /\ elb.Enabled logging = Some true
  | ELBv2_DescribeLoadBalancerAttributes arn =>
      exists response attribs,
        elbv2.on_describe_load_balancer_attributes (client_elbv2 session (region alert)) arn
          = Success response
        /\ elbv2.Attributes response = Some attribs
        /\ last_enabled_is_true attribs
  | _ => False
  end.

(** An entry of the attribute list that does not say
    [access_logs.s3.enabled = true]. *)
Definition not_enabling (a : elbv2.Attribute) : Prop :=
  exists key,
    elbv2.Key a = Some key
    /\ (key = "access_logs.s3.enabled" ->
        exists value, elbv2.Value a = Some value /\ value <> "true").

(** * Vocabulary of the further properties *)

(** *** Exceptions and printed lines *)

(** The exceptions raised by what a runbook reads from the resource id of
    the alert and from the answers to its read-only calls. *)
Definition raised_on_reading : list exn :=
  [ IndexError;
    KeyError "Snapshots"; KeyError "StartTime";
    KeyError "DBInstances"; KeyError "DBInstanceIdentifier";
    KeyError "LoadBalancerAttributes"; KeyError "AccessLog"; KeyError "Enabled";
    KeyError "Account";
    KeyError "LoadBalancers"; KeyError "Attributes"; KeyError "Key"; KeyError "Value" ].

(** The line printed for a failed mutating call: the provider's message,
    but for the two hints on the account id of the region. *)
Definition failure_line (region : string) (c : Call) (e : ClientError) : string :=
  if modifies_attributes c && contains "Access Denied" (Message e)
  then "Access Denied: Check the AWS ELB Account Id for the " ++ region ++ " region."
  else if puts_policy c && contains "Invalid principal" (Message e)
  then "Invalid principal: Check the AWS ELB Account Id for the " ++ region ++ " region."
  else Message e.

(** The line printed for the outcome of a bucket creation. *)
Definition bucket_line (ev : Event) : option string :=
  match ev with
  | Succeeded (S3_CreateBucket _ bucket _) => Some ("New S3 bucket created: " ++ bucket)
  | Failed (S3_CreateBucket _ bucket _) e =>
      if Code e =? "BucketAlreadyExists"
      then Some ("Using existing S3 bucket: " ++ bucket)
      else if Code e =? "BucketAlreadyOwnedByYou"
      then Some ("Using already owned and existing S3 bucket: " ++ bucket)
      else Some (Message e)
  | _ => None
  end.

(** The line printed for a failed call: the notice or message of a bucket
    creation, the hint or message of another call. *)
Definition reported_line (region : string) (c : Call) (e : ClientError) : string :=
  match bucket_line (Failed c e) with
  | Some line => line
  | None => failure_line region c e
  end.

(** The line printed after a modification that succeeded. *)
Definition success_line (c : Call) : option string :=
  match c with
  | RDS_ModifyDBInstance instance_id _ =>
      Some ("Removed public attribute from RDS instance " ++ instance_id ++ ".")
  | ELB_ModifyLoadBalancerAttributes elb_name _ =>
      Some ("Enabled Access Log for ELB " ++ elb_name ++ ".")
  | ELBv2_ModifyLoadBalancerAttributes _ attributes =>
      match assoc "access_logs.s3.prefix" attributes with
      | Some elb_name => Some ("Enabled Access Log for Application ELB " ++ elb_name ++ ".")
      | None => None
      end
  | _ => None
  end.

(** *** Calls *)

(** The provider operation of a call, whatever its arguments. *)
Definition operation (c : Call) : nat :=
  match c with
  | EC2_DescribeSnapshots _ => 0
  | EC2_CreateSnapshot _ _ => 1
  | RDS_DescribeDBInstances _ => 2
  | RDS_ModifyDBInstance _ _ => 3
  | ELB_DescribeLoadBalancerAttributes _ => 4
  | ELB_ModifyLoadBalancerAttributes _ _ => 5
  | STS_GetCallerIdentity => 6
  | S3_CreateBucket _ _ _ => 7
  | S3_PutObject _ _ => 8
  | S3_PutBucketPolicy _ _ => 9
  | ELBv2_DescribeLoadBalancers _ => 10
  | ELBv2_DescribeLoadBalancerAttributes _ => 11
  | ELBv2_ModifyLoadBalancerAttributes _ _ => 12
  end.

(** The literal a runbook starts its bucket names with, and the path
    segment of the resource id it takes the load-balancer name from. *)
Definition bucket_prefix (rb : Runbook) : string :=
  match rb with AWS_ELB_015 => "elbv2logs-" | _ => "elblogs-" end.

Definition name_segment (rb : Runbook) : nat :=
  match rb with AWS_ELB_015 => 2%nat | _ => 1%nat end.

(** A mutating call of a load-balancer runbook is about the bucket
    [bucket], the load balancer [elb_name] and the account [account_id]. *)
Definition targets (region bucket elb_name account_id : string) (c : Call) : Prop :=
  match c with
  | S3_CreateBucket acl b location =>
      acl = "private" /\ b = bucket /\ location = location_of region
  | S3_PutObject b key => b = bucket /\ key = elb_name ++ "/"
  | S3_PutBucketPolicy b policy =>
      b = bucket /\ policy = BucketTemplate.BucketPolicy bucket account_id region
  | ELB_ModifyLoadBalancerAttributes name setting =>
      name = elb_name /\ setting = mkAccessLogSetting true bucket 60 elb_name
  | ELBv2_ModifyLoadBalancerAttributes _ attributes =>
      attributes = [ ("access_logs.s3.enabled", "true");
                     ("access_logs.s3.bucket", bucket);
                     ("access_logs.s3.prefix", elb_name) ]
  | _ => True
  end.

(** How often [sep] occurs in [s]. *)
Fixpoint occurrences (sep : ascii) (s : string) : nat :=
  match s with
  | EmptyString => 0
  | String c rest => (if Ascii.eqb c sep then 1 else 0) + occurrences sep rest
  end.

(** *** Decisions *)

(** Whether the first snapshot listed calls for a new one. *)
Definition first_listed_is_due (today : Z) (snapshots : list ec2.Snapshot) : bool :=
  match snapshots with
  | [] => true
  | first :: _ =>
      match ec2.StartTime first with
      | Some start => (15 <=? today - ec2.date_of start)%Z
      | None => false
      end
  end.

Definition is_enabled_entry (a : elbv2.Attribute) : bool :=
  match elbv2.Key a with
  | Some key => key =? "access_logs.s3.enabled"
  | None => false
  end.

(** The value of the last entry with key [access_logs.s3.enabled]. *)
Definition last_setting (attribs : list elbv2.Attribute) : option string :=
  match find is_enabled_entry (rev attribs) with
  | Some a => elbv2.Value a
  | None => None
  end.

(** *** More sample provider answers *)

Module Sample2.

(** The name lookup of the v2 load balancer finds nothing. *)
Definition nothing_found : Session :=
  Sample.with_elbv2
    (elbv2.mkClient
       (fun _ => Success (elbv2.mkDescribeLoadBalancersResult (Some [])))
       (fun _ => Sample.enabled_is "true")
       (fun _ _ => Success tt))
    Sample.quiet.

Definition enabled_entry (value : string) : elbv2.Attribute :=
  elbv2.mkAttribute (Some "access_logs.s3.enabled") (Some value).

(** The attribute list says [true] and then [false]. *)
Definition true_then_false : Session :=
  Sample.with_elbv2
    (Sample.elbv2_reporting
       (Success (elbv2.mkDescribeAttributesResult
                   (Some [enabled_entry "true"; enabled_entry "false"]))))
    Sample.quiet.

Definition classic_bucket : string := "elblogs-111122223333-us-west-2".

End Sample2.

(** * Properties *)

(** ** The bucket policy *)

Import BucketTemplate.

Lemma elb_account_id_table region :
  elb_account_id region = account_or_placeholder region.
Proof.
  unfold elb_account_id, account_or_placeholder, documented_accounts, assoc.
  repeat match goal with
         | |- context [String.eqb region ?s] => destruct (String.eqb region s)
         end; reflexivity.
Qed.

(** C1 (amended): the principal the generated policy trusts for log delivery
    is the root of the account the table has for the region, so
    [797873946194] for [us-west-2] and [156460612806] for [eu-west-1]; for a
    region the table does not have it is the root of the account
    [123456789012] the builder starts from. *)
Theorem BucketPolicy_trusted_principal :
  forall self account_id region : string,
    trusted_principal (BucketPolicy self account_id region)
      = Some (root_arn (account_or_placeholder region))
    /\ trusted_principal (BucketPolicy self account_id "us-west-2")
      = Some (root_arn "797873946194")
    /\ trusted_principal (BucketPolicy self account_id "eu-west-1")
      = Some (root_arn "156460612806").
Proof.
  intros self account_id region. split; [|split]; try reflexivity.
  unfold trusted_principal, statements, BucketPolicy, root_arn.
  cbn [member assoc String.eqb Ascii.eqb Bool.eqb].
  now rewrite elb_account_id_table.
Qed.

Lemma BucketPolicy_unmapped_region_gets_placeholder :
  assoc "af-south-1" documented_accounts = None
  /\ trusted_principal
       (BucketPolicy "elblogs-111122223333-af-south-1" "111122223333" "af-south-1")
     = Some (JString "arn:aws:iam::123456789012:root").
Proof. split; reflexivity. Qed.

(** C10: whatever the bucket name, the account id and the region, the
    policy document has exactly three statements: [s3:PutObject] for the
    root of the region's account, [s3:PutObject] for the log-delivery
    service, and [s3:GetBucketAcl] for the log-delivery service; the
    resources are built from the bucket name and the account id, the
    principal from the account of the region.  The document is a function
    of the three strings. *)
Theorem BucketPolicy_three_statements :
  forall self account_id region : string,
    exists aws_put service_put service_acl : json,
      member "Version" (BucketPolicy self account_id region) = Some (JString "2012-10-17")
      /\ statements (BucketPolicy self account_id region) = [aws_put; service_put; service_acl]
      /\ grant aws_put =
           (Some (JString "Allow"),
            Some (JObject [("AWS", root_arn (elb_account_id region))]),
            Some (JString "s3:PutObject"),
            Some (JString ("arn:aws:s3:::" ++ self ++ "/*/AWSLogs/" ++ account_id ++ "/*")))
      /\ grant service_put =
           (Some (JString "Allow"),
            Some (JObject [("Service", JString "delivery.logs.amazonaws.com")]),
            Some (JString "s3:PutObject"),
            Some (JString ("arn:aws:s3:::" ++ self ++ "/*/AWSLogs/" ++ account_id ++ "/*")))
      /\ grant service_acl =
           (Some (JString "Allow"),
            Some (JObject [("Service", JString "delivery.logs.amazonaws.com")]),
            Some (JString "s3:GetBucketAcl"),
            Some (JString ("arn:aws:s3:::" ++ self))).
Proof.
  intros self account_id region. unfold BucketPolicy, statements.
  do 3 eexists. split; [reflexivity|]. split; [reflexivity|].
  repeat split.
Qed.

(** ** Walking through a runbook

    [explore] names the run of the goal, unfolds the runbook and splits on
    every answer, entry and test the runbook looks at, so that each goal left
    is one path through it with the run written out. *)

Lemma for_attrib_in_cases attribs : forall logging st,
  (exists value, ELB_015.for_attrib_in attribs logging st = (Returned value, st))
  \/ (exists key, ELB_015.for_attrib_in attribs logging st = (Raised (KeyError key), st)).
Proof.
  induction attribs as [|a rest IH]; intros logging st; cbn.
  - left. now exists logging.
  - unfold bind, subscript. destruct (elbv2.Key a) as [k|]; cbn.
    + destruct (k =? "access_logs.s3.enabled").
      * destruct (elbv2.Value a) as [v|]; cbn; [apply IH|].
        right. now exists "Value".
      * apply IH.
    + right. now exists "Key".
Qed.

Ltac unfold_runbooks :=
  unfold run, exec, calls,
    EC2_001.remediate, EC2_001.new_ebs_snapshot,
    RDS_005.remediate,
    ELB_013.remediate, ELB_013.get_account_id, ELB_013.new_s3_bucket, ELB_013.enable_access_log,
    ELB_015.remediate, ELB_015.new_s3_bucket, ELB_015.enable_access_log,
    Bucket.new_s3_bucket,
    ec2.describe_snapshots, ec2.create_snapshot,
    rds.describe_db_instances, rds.modify_db_instance,
    elb.describe_load_balancer_attributes, elb.modify_load_balancer_attributes,
    sts.get_caller_identity,
    s3.create_bucket, s3.put_object, s3.put_bucket_policy,
    elbv2.describe_load_balancers, elbv2.describe_load_balancer_attributes,
    elbv2.modify_load_balancer_attributes,
    subscript, index, bind, try_, try_lookup, ret, raise, print, invoke.

Ltac simp := cbn [log trace result printed events fst snd app map call_of
                  String.append String.eqb Ascii.eqb Bool.eqb negb nth_error length Nat.ltb Nat.leb].

Ltac split_loop :=
  match goal with
  | |- (_ = ?rhs) -> _ =>
      match rhs with
      | context [ELB_015.for_attrib_in ?a ?l ?st] =>
          let E := fresh "Hloop" in
          destruct (for_attrib_in_cases a l st) as [[? E]|[? E]]; rewrite E
      end
  end.

Ltac split_list :=
  match goal with
  | |- (_ = ?rhs) -> _ =>
      match rhs with
      | context [length ?l] => is_var l; destruct l
      | context [nth_error ?l _] => is_var l; destruct l
      end
  end.

Ltac split_scrutinee :=
  match goal with
  | |- (_ = ?rhs) -> _ =>
      match rhs with
      | context [match ?x with _ => _ end] =>
          lazymatch x with
          | context [match _ with _ => _ end] => fail
          | context [ELB_015.for_attrib_in] => fail
          | _ => destruct x eqn:?
          end
      end
  end.

Ltac walk := repeat (simp; first [split_loop | split_list | split_scrutinee]); simp.

Ltac pick_event H :=
  cbn [In] in H;
  repeat match type of H with
         | _ \/ _ => destruct H as [H|H]
         end;
  try contradiction; try discriminate;
  inversion H; subst; clear H.

Ltac explore :=
  match goal with
  | |- context [run ?rb ?s ?a ?t] =>
      let r := fresh "r" in
      let Hr := fresh "Hr" in
      remember (run rb s a t) as r eqn:Hr; revert Hr
  end;
  unfold_runbooks; walk; intros ->; simp.

Ltac unify_facts :=
  repeat match goal with
         | H : ?x = ?x |- _ => clear H
         | H : Success _ = Success _ |- _ => inversion H; subst; clear H
         | H : Failure _ = Failure _ |- _ => inversion H; subst; clear H
         | H : Success _ = Failure _ |- _ => discriminate H
         | H : Failure _ = Success _ |- _ => discriminate H
         | H : Some _ = Some _ |- _ => inversion H; subst; clear H
         | H : Some _ = None |- _ => discriminate H
         | H : None = Some _ |- _ => discriminate H
         | H : _ :: _ = _ :: _ |- _ => inversion H; subst; clear H
         | H : _ :: _ = [] |- _ => discriminate H
         | H : [] = _ :: _ |- _ => discriminate H
         | H1 : ?t = _, H2 : ?t = _ |- _ => rewrite H1 in H2
         end.

(** ** AWS-EC2-001 *)

Lemma EC2_001_without_snapshots :
  forall session alert today response,
    ec2.on_describe_snapshots (client_ec2 session (region alert))
      [mkFilter "volume-id" [resource_id alert]] = Success response ->
    ec2.Snapshots response = Some [] ->
    attempted creates_snapshot (run AWS_EC2_001 session alert today) = true.
Proof.
  intros session alert today response Hdescribe Hnone.
  unfold attempted. explore; unify_facts; reflexivity.
Qed.

Lemma EC2_001_threshold_on_first_listed :
  forall session alert today response first rest start,
    ec2.on_describe_snapshots (client_ec2 session (region alert))
      [mkFilter "volume-id" [resource_id alert]] = Success response ->
    ec2.Snapshots response = Some (first :: rest) ->
    ec2.StartTime first = Some start ->
    attempted creates_snapshot (run AWS_EC2_001 session alert today) = true
    <-> (today - ec2.date_of start >= 15)%Z.
Proof.
  intros session alert today response first rest start Hdescribe Hsome Hstart.
  unfold attempted, EC2_001.snapshot_age in *. explore; unify_facts.
  all: match goal with
       | H : (_ >=? _)%Z = true |- _ => rewrite Z.geb_leb in H; apply Z.leb_le in H
       | H : (_ >=? _)%Z = false |- _ => rewrite Z.geb_leb in H; apply Z.leb_gt in H
       end.
  all: unfold EC2_001.snapshot_age in *; cbn; split; intros; try lia; try reflexivity; try discriminate.
Qed.

(** C2, where the code departs from it: the response lists a snapshot of
    twenty days ago before one of yesterday.  The most recently created
    snapshot is one day old, yet the runbook reads [snapshot[0]] only and
    creates a new snapshot. *)
Theorem EC2_001_only_first_listed_snapshot_is_read :
  latest_date [Sample.snapshot_on 738180; Sample.snapshot_on 738199] = Some 738199%Z
  /\ (738200 - 738199 < EC2_001.snapshot_age)%Z
  /\ run AWS_EC2_001 Sample.stale_listed_first Sample.volume_alert 738200
     = mkRun (Returned tt)
             ["New snapshot snap-0new created for EBS Volume vol-0abc."]
             [Succeeded (EC2_DescribeSnapshots [mkFilter "volume-id" ["vol-0abc"]]);
              Succeeded (EC2_CreateSnapshot "vol-0abc" "Autoremediate snapshot")].
Proof. repeat split. Qed.

(** ** AWS-RDS-005 *)

(** C3 (amended): when [describe_db_instances] succeeds, the runbook issues
    exactly one [modify_db_instance] call, with [PubliclyAccessible=False],
    if the first record has [PubliclyAccessible] true and carries its
    [DBInstanceIdentifier]; it issues none and returns if the flag is false
    or missing or if no record is returned. *)
Theorem RDS_005_modifies_public_instances_only :
  forall session alert today response instances,
    rds.on_describe_db_instances (client_rds session (region alert))
      [mkFilter "dbi-resource-id" [resource_id alert]] = Success response ->
    rds.DBInstances response = Some instances ->
    match instances with
    | first :: _ =>
        match rds.PubliclyAccessible first with
        | Some true =>
            forall instance_id,
              rds.DBInstanceIdentifier first = Some instance_id ->
              filter modifies_instance (calls (run AWS_RDS_005 session alert today))
              = [RDS_ModifyDBInstance instance_id false]
        | _ =>
            filter modifies_instance (calls (run AWS_RDS_005 session alert today)) = []
            /\ result (run AWS_RDS_005 session alert today) = Returned tt
        end
    | [] =>
        filter modifies_instance (calls (run AWS_RDS_005 session alert today)) = []
        /\ result (run AWS_RDS_005 session alert today) = Returned tt
    end.
Proof.
  intros session alert today response instances Hdescribe Hlisted.
  destruct instances as [|first rest].
  - explore; unify_facts. now split.
  - destruct (rds.PubliclyAccessible first) as [[|]|] eqn:Hflag.
    + intros instance_id Hid. explore; unify_facts; reflexivity.
    + explore; unify_facts. now split.
    + explore; unify_facts. now split.
Qed.

Lemma RDS_005_modifies_public_instances_only_witness :
  filter modifies_instance (calls (run AWS_RDS_005 Sample.public_named Sample.database_alert 0))
  = [RDS_ModifyDBInstance "mydb" false].
Proof.
  exact (RDS_005_modifies_public_instances_only
           Sample.public_named Sample.database_alert 0 _ _ eq_refl eq_refl "mydb" eq_refl).
Defined.

Lemma RDS_005_public_without_identifier :
  rds.on_describe_db_instances (client_rds Sample.public_unnamed "eu-west-1")
    [mkFilter "dbi-resource-id" ["db-ABCDEFGHIJKLMNOPQRSTUVWXYZ"]]
  = Success (rds.mkDescribeDBInstancesResult (Some [rds.mkDBInstance (Some true) None]))
  /\ filter modifies_instance
       (calls (run AWS_RDS_005 Sample.public_unnamed Sample.database_alert 0)) = []
  /\ result (run AWS_RDS_005 Sample.public_unnamed Sample.database_alert 0)
     = Raised (KeyError "DBInstanceIdentifier").
Proof. repeat split. Qed.

(** ** Errors *)

(** X1: whatever the alert and whatever the provider answers, no
    [ClientError] leaves an entry point. *)
Lemma provider_errors_never_escape :
  forall rb session alert today e,
    result (run rb session alert today) <> Raised (ClientErrorExn e).
Proof.
  intros rb session alert today e.
  destruct rb; explore; discriminate.
Qed.

(** C4 (amended): in every runbook, when a provider call fails, with an
    error that carries its code and message, the entry point returns: the
    error is not raised again, and a line is printed for it, which is the
    provider's message, one of the two hints on the account id of the
    region, or the notice that an existing bucket is used. *)
Theorem failed_calls_are_printed_not_raised :
  forall rb session alert today c e,
    In (Failed c e) (events (run rb session alert today)) ->
    result (run rb session alert today) = Returned tt
    /\ In (reported_line (region alert) c e) (printed (run rb session alert today)).
Proof.
  intros rb session alert today c e Hin; revert Hin.
  destruct rb; explore; intros Hin; pick_event Hin;
    (split; [reflexivity|]);
    unfold reported_line, failure_line;
    cbn [bucket_line modifies_attributes puts_policy andb];
    repeat match goal with
           | H : (Code _ =? _) = _ |- _ => rewrite H
           | H : contains _ _ = _ |- _ => rewrite H
           end;
    cbn [In]; tauto.
Qed.

Lemma failed_calls_are_printed_not_raised_witness :
  result (run AWS_ELB_013 Sample.creation_denied Sample.classic_alert 0) = Returned tt
  /\ In "User is not authorized to perform this operation"
        (printed (run AWS_ELB_013 Sample.creation_denied Sample.classic_alert 0)).
Proof.
  apply (failed_calls_are_printed_not_raised AWS_ELB_013 Sample.creation_denied
           Sample.classic_alert 0
           (S3_CreateBucket "private" Sample2.classic_bucket (Some "us-west-2")) Sample.denied).
  right. right. left. reflexivity.
Defined.

Lemma ELB_013_alert_without_path_raises :
  run AWS_ELB_013 Sample.quiet (mkAlert "myelb" "us-west-2") 0
  = mkRun (Raised IndexError) [] [].
Proof. reflexivity. Qed.

(** ** Read failures *)

(** C8: in every runbook, when a call that only reads (describe, lookup
    by name, caller identity) fails, the invocation returns at once: the
    failed call is its last call, the provider's message is the one line
    printed, and no mutating call is made. *)
Theorem read_failure_aborts :
  forall (rb : Runbook) (session : Session) (alert : Alert) (today : Z)
         (c : Call) (e : ClientError),
    In (Failed c e) (events (run rb session alert today)) ->
    mutating c = false ->
    result (run rb session alert today) = Returned tt
    /\ printed (run rb session alert today) = [Message e]
    /\ (exists before, events (run rb session alert today) = (before ++ [Failed c e])%list)
    /\ existsb mutating (calls (run rb session alert today)) = false.
Proof.
  intros rb session alert today c e.
  destruct rb; explore; intros Hin Hread; pick_event Hin;
    try discriminate Hread;
    (split; [reflexivity|]; split; [reflexivity|]; split; [|reflexivity]).
  all: first [ now exists [] | eexists [_]; reflexivity | eexists [_; _]; reflexivity ].
Qed.

Lemma read_failure_aborts_witness :
  result (run AWS_EC2_001 Sample.describe_denied Sample.volume_alert 0) = Returned tt
  /\ printed (run AWS_EC2_001 Sample.describe_denied Sample.volume_alert 0)
     = ["User is not authorized to perform this operation"]
  /\ (exists before,
        events (run AWS_EC2_001 Sample.describe_denied Sample.volume_alert 0)
        = (before ++ [Failed (EC2_DescribeSnapshots [mkFilter "volume-id" ["vol-0abc"]])
                             Sample.denied])%list)
  /\ existsb mutating (calls (run AWS_EC2_001 Sample.describe_denied Sample.volume_alert 0)) = false.
Proof.
  apply (read_failure_aborts AWS_EC2_001 Sample.describe_denied Sample.volume_alert 0
           (EC2_DescribeSnapshots [mkFilter "volume-id" ["vol-0abc"]]) Sample.denied).
  - left. reflexivity.
  - reflexivity.
Defined.

(** C5 (amended): when the public-database runbook finds no instance record
    or a record without [PubliclyAccessible], and when the elbv2 runbook
    finds no load balancer or a record without [LoadBalancerArn], the
    invocation returns without a mutating call. *)
Theorem nothing_to_decide_on_is_no_remediation :
  forall rb session alert today,
    nothing_to_decide_on rb session alert ->
    result (run rb session alert today) = Returned tt
    /\ attempted mutating (run rb session alert today) = false.
Proof.
  intros rb session alert today Hnothing. unfold attempted.
  destruct rb; cbn [nothing_to_decide_on] in Hnothing; try contradiction.
  - destruct Hnothing as (response & instances & Hdescribe & Hlisted & Hflag).
    explore; unify_facts; try discriminate; now split.
  - destruct Hnothing as (elb_name & response & balancers & Hname & Hdescribe & Hlisted & Harn).
    explore; cbn [nth_error] in Hname; unify_facts; try discriminate; now split.
Qed.

Lemma ELB_015_missing_attribute_is_remediated :
  elbv2.on_describe_load_balancer_attributes
    (client_elbv2 Sample.attribute_missing "us-west-2") Sample.myelb_arn
  = Success (elbv2.mkDescribeAttributesResult (Some []))
  /\ result (run AWS_ELB_015 Sample.attribute_missing Sample.v2_alert 0) = Returned tt
  /\ attempted creates_bucket (run AWS_ELB_015 Sample.attribute_missing Sample.v2_alert 0) = true
  /\ attempted modifies_attributes (run AWS_ELB_015 Sample.attribute_missing Sample.v2_alert 0) = true.
Proof. repeat split. Qed.

Lemma nothing_to_decide_on_is_no_remediation_witness :
  nothing_to_decide_on AWS_RDS_005 Sample.quiet Sample.database_alert
  /\ result (run AWS_RDS_005 Sample.quiet Sample.database_alert 0) = Returned tt
  /\ attempted mutating (run AWS_RDS_005 Sample.quiet Sample.database_alert 0) = false.
Proof.
  assert (Hnothing : nothing_to_decide_on AWS_RDS_005 Sample.quiet Sample.database_alert).
  { do 2 eexists. repeat split. }
  split; [exact Hnothing|].
  exact (nothing_to_decide_on_is_no_remediation AWS_RDS_005 _ _ 0 Hnothing).
Defined.

(** ** Bucket provisioning *)

(** C6: in both load-balancer runbooks, a failed provisioning call [c]
    either is a bucket creation refused with [BucketAlreadyExists] or
    [BucketAlreadyOwnedByYou], and then the marker object is put, the policy
    is put once the object is, and the attributes are modified once the
    policy is; or it is the last call of the invocation and the attributes
    are not modified. *)
Theorem bucket_provisioning_failures :
  forall rb session alert today c e,
    rb = AWS_ELB_013 \/ rb = AWS_ELB_015 ->
    In (Failed c e) (events (run rb session alert today)) ->
    provisions c = true ->
    if bucket_was_there c e
    then attempted puts_object (run rb session alert today) = true
         /\ (succeeded puts_object (run rb session alert today) = true ->
             attempted puts_policy (run rb session alert today) = true)
         /\ (succeeded puts_policy (run rb session alert today) = true ->
             attempted modifies_attributes (run rb session alert today) = true)
    else attempted modifies_attributes (run rb session alert today) = false
         /\ exists before,
              events (run rb session alert today) = (before ++ [Failed c e])%list.
Proof.
  intros rb session alert today c e [-> | ->] Hin Hprovisions;
    revert Hin; unfold attempted, succeeded;
    explore; intros Hin; pick_event Hin; try discriminate Hprovisions;
    unfold bucket_was_there; cbn [creates_bucket andb];
    repeat match goal with
           | H : (Code _ =? _) = _ |- _ => rewrite H
           end;
    cbn [orb existsb map call_of puts_object puts_policy modifies_attributes];
    try (repeat split; intros; solve [reflexivity | discriminate]).
  all: split; [reflexivity|].
  all: first [ eexists [_; _]; reflexivity | eexists [_; _; _]; reflexivity
             | eexists [_; _; _; _]; reflexivity | eexists [_; _; _; _; _]; reflexivity ].
Qed.

Lemma bucket_provisioning_failures_witness :
  attempted puts_object (run AWS_ELB_013 Sample.bucket_owned Sample.classic_alert 0) = true
  /\ (succeeded puts_object (run AWS_ELB_013 Sample.bucket_owned Sample.classic_alert 0) = true ->
      attempted puts_policy (run AWS_ELB_013 Sample.bucket_owned Sample.classic_alert 0) = true)
  /\ (succeeded puts_policy (run AWS_ELB_013 Sample.bucket_owned Sample.classic_alert 0) = true ->
      attempted modifies_attributes (run AWS_ELB_013 Sample.bucket_owned Sample.classic_alert 0) = true).
Proof.
  apply (bucket_provisioning_failures AWS_ELB_013 Sample.bucket_owned Sample.classic_alert 0
           (S3_CreateBucket "private" "elblogs-111122223333-us-west-2" (Some "us-west-2"))
           Sample.owned).
  - left. reflexivity.
  - right. right. left. reflexivity.
  - reflexivity.
Defined.

(** ** Logging already enabled *)

Lemma for_attrib_in_skips after :
  Forall (fun a => elbv2.Key a <> Some "access_logs.s3.enabled") after ->
  forall logging st,
    ELB_015.for_attrib_in after logging st = (Returned logging, st)
    \/ exists key, ELB_015.for_attrib_in after logging st = (Raised (KeyError key), st).
Proof.
  induction 1 as [|a rest Hkey _ IH]; intros logging st; cbn.
  - now left.
  - unfold bind, subscript. destruct (elbv2.Key a) as [key|]; cbn.
    + destruct (String.eqb_spec key "access_logs.s3.enabled") as [->|_];
        [now destruct Hkey | apply IH].
    + right. now exists "Key".
Qed.

Lemma for_attrib_in_last_enabled attribs :
  last_enabled_is_true attribs ->
  forall logging st,
    ELB_015.for_attrib_in attribs logging st = (Returned "true", st)
    \/ exists key, ELB_015.for_attrib_in attribs logging st = (Raised (KeyError key), st).
Proof.
  intros (before & after & -> & Hafter).
  induction before as [|a rest IH]; intros logging st; cbn.
  - unfold bind. cbn. now apply for_attrib_in_skips.
  - unfold bind, subscript. destruct (elbv2.Key a) as [key|]; cbn.
    + destruct (key =? "access_logs.s3.enabled").
      * destruct (elbv2.Value a) as [v|]; cbn; [apply IH|].
        right. now exists "Value".
      * apply IH.
    + right. now exists "Key".
Qed.

(** C7: when the describe-attributes call of a load-balancer runbook,
    classic or v2, succeeds and reports access logging enabled, the
    invocation makes no mutating call: no bucket is created and no
    attribute is modified. *)
Theorem enabled_logging_is_left_alone :
  forall rb session alert today c,
    In (Succeeded c) (events (run rb session alert today)) ->
    reports_logging_enabled session alert c ->
    attempted mutating (run rb session alert today) = false
    /\ attempted creates_bucket (run rb session alert today) = false
    /\ attempted modifies_attributes (run rb session alert today) = false.
Proof.
  intros rb session alert today c Hin Hreports; revert Hin; unfold attempted.
  destruct rb; explore; intros Hin; pick_event Hin;
    cbn [reports_logging_enabled] in Hreports; try contradiction;
    try (repeat split; reflexivity); exfalso.
  all: try (destruct Hreports as (response & attribs & logging & Hdescribe & Hattribs & Hlog & Hon);
            unify_facts; discriminate).
  all: destruct Hreports as (response & attribs & Hdescribe & Hattribs & Hlast);
    unify_facts;
    match goal with
    | E : ELB_015.for_attrib_in ?l ?v ?st = _ |- _ =>
        destruct (for_attrib_in_last_enabled l Hlast v st) as [E'|[? E']];
        rewrite E' in E; inversion E; subst
    end; discriminate.
Qed.

Lemma enabled_logging_is_left_alone_witness :
  attempted mutating (run AWS_ELB_015 Sample.quiet Sample.v2_alert 0) = false
  /\ attempted creates_bucket (run AWS_ELB_015 Sample.quiet Sample.v2_alert 0) = false
  /\ attempted modifies_attributes (run AWS_ELB_015 Sample.quiet Sample.v2_alert 0) = false.
Proof.
  apply (enabled_logging_is_left_alone AWS_ELB_015 Sample.quiet Sample.v2_alert 0
           (ELBv2_DescribeLoadBalancerAttributes Sample.myelb_arn)).
  - right. left. reflexivity.
  - do 2 eexists. split; [reflexivity|]. split; [reflexivity|].
    exists [], []. split; [reflexivity|constructor].
Defined.

(** ** The elbv2 scenario *)

Lemma for_attrib_in_not_enabling attribs :
  Forall not_enabling attribs ->
  forall logging st,
    logging <> "true" ->
    exists value,
      ELB_015.for_attrib_in attribs logging st = (Returned value, st) /\ value <> "true".
Proof.
  induction 1 as [|a rest (key & Hkey & Hvalue) _ IH]; intros logging st Hlogging; cbn.
  - now exists logging.
  - unfold bind, subscript. rewrite Hkey. cbn.
    destruct (String.eqb_spec key "access_logs.s3.enabled") as [Heq|_].
    + destruct (Hvalue Heq) as (value & -> & Hnot). cbn. now apply IH.
    + now apply IH.
Qed.

(** C9: an elbv2 alert whose resource id has [myelb] as third path
    segment, a lookup by name that yields an ARN with account id [account],
    an attribute list that does not say [access_logs.s3.enabled = true], and
    bucket provisioning that succeeds: the runbook creates the bucket
    [elbv2logs-<account>-<region>], puts an object without body at [myelb/],
    attaches the bucket policy and issues one attribute modification that
    sets enabled, bucket and prefix. *)
Theorem ELB_015_enables_logging_for_myelb :
  forall session alert today balancers first rest arn account attributes attribs,
    nth_error (split "/" (resource_id alert)) 2 = Some "myelb" ->
    elbv2.on_describe_load_balancers (client_elbv2 session (region alert)) ["myelb"]
      = Success balancers ->
    elbv2.LoadBalancers balancers = Some (first :: rest) ->
    elbv2.LoadBalancerArn first = Some arn ->
    nth_error (split ":" arn) 4 = Some account ->
    elbv2.on_describe_load_balancer_attributes (client_elbv2 session (region alert)) arn
      = Success attributes ->
    elbv2.Attributes attributes = Some attribs ->
    Forall not_enabling attribs ->
    let bucket := "elbv2logs-" ++ account ++ "-" ++ region alert in
    let policy := BucketTemplate.BucketPolicy bucket account (region alert) in
    s3.on_create_bucket (client_s3 session (region alert)) "private" bucket
      (location_of (region alert)) = Success tt ->
    s3.on_put_object (client_s3 session (region alert)) bucket "myelb/" = Success tt ->
    s3.on_put_bucket_policy (client_s3 session (region alert)) bucket policy = Success tt ->
    calls (run AWS_ELB_015 session alert today)
    = [ ELBv2_DescribeLoadBalancers ["myelb"];
        ELBv2_DescribeLoadBalancerAttributes arn;
        S3_CreateBucket "private" bucket (location_of (region alert));
        S3_PutObject bucket "myelb/";
        S3_PutBucketPolicy bucket policy;
        ELBv2_ModifyLoadBalancerAttributes arn
          [ ("access_logs.s3.enabled", "true");
            ("access_logs.s3.bucket", bucket);
            ("access_logs.s3.prefix", "myelb") ] ]
    /\ result (run AWS_ELB_015 session alert today) = Returned tt.
Proof.
  intros session alert today balancers first rest arn account attributes attribs
         Hname Hlookup Hlisted Harn Haccount Hdescribe Hattribs Hnot bucket policy
         Hcreate Hobject Hpolicy.
  destruct (for_attrib_in_not_enabling attribs Hnot "none"
              (mkState [] [Succeeded (ELBv2_DescribeLoadBalancers ["myelb"]);
                           Succeeded (ELBv2_DescribeLoadBalancerAttributes arn)]))
    as (value & Hloop & Hvalue); [discriminate|].
  apply String.eqb_neq in Hvalue.
  unfold location_of in *. subst bucket policy.
  unfold_runbooks.
  rewrite Hname; cbn [fst snd log trace app]. rewrite Hlookup; cbn [fst snd log trace app].
  rewrite Hlisted; cbn [fst snd log trace app].
  change (nth_error (first :: rest) 0) with (Some first); cbn [fst snd log trace app].
  rewrite Harn; cbn [fst snd log trace]. rewrite Haccount; simp. rewrite Hdescribe; simp.
  rewrite Hattribs; simp. rewrite Hloop; simp. rewrite Hvalue; simp.
  cbn [String.append] in Hcreate, Hobject, Hpolicy.
  destruct (region alert =? "us-east-1"); rewrite Hcreate; simp;
    rewrite Hobject; simp; rewrite Hpolicy; simp;
    match goal with
    | |- context [elbv2.on_modify_load_balancer_attributes ?c ?a ?l] =>
        destruct (elbv2.on_modify_load_balancer_attributes c a l)
    end; simp;
    try match goal with
        | |- context [contains ?n ?h] => destruct (contains n h)
        end; simp; split; reflexivity.
Qed.

Lemma ELB_015_enables_logging_for_myelb_witness :
  calls (run AWS_ELB_015 Sample.logging_disabled Sample.v2_alert 0)
  = [ ELBv2_DescribeLoadBalancers ["myelb"];
      ELBv2_DescribeLoadBalancerAttributes Sample.myelb_arn;
      S3_CreateBucket "private" "elbv2logs-111122223333-us-west-2" (Some "us-west-2");
      S3_PutObject "elbv2logs-111122223333-us-west-2" "myelb/";
      S3_PutBucketPolicy "elbv2logs-111122223333-us-west-2"
        (BucketTemplate.BucketPolicy "elbv2logs-111122223333-us-west-2" "111122223333" "us-west-2");
      ELBv2_ModifyLoadBalancerAttributes Sample.myelb_arn
        [ ("access_logs.s3.enabled", "true");
          ("access_logs.s3.bucket", "elbv2logs-111122223333-us-west-2");
          ("access_logs.s3.prefix", "myelb") ] ]
  /\ result (run AWS_ELB_015 Sample.logging_disabled Sample.v2_alert 0) = Returned tt.
Proof.
  apply (ELB_015_enables_logging_for_myelb Sample.logging_disabled Sample.v2_alert 0
           (elbv2.mkDescribeLoadBalancersResult (Some [elbv2.mkLoadBalancer (Some Sample.myelb_arn)]))
           (elbv2.mkLoadBalancer (Some Sample.myelb_arn)) [] Sample.myelb_arn "111122223333"
           (elbv2.mkDescribeAttributesResult
              (Some [elbv2.mkAttribute (Some "access_logs.s3.enabled") (Some "false")]))
           [elbv2.mkAttribute (Some "access_logs.s3.enabled") (Some "false")]);
    try reflexivity.
  constructor; [|constructor].
  exists "access_logs.s3.enabled". split; [reflexivity|].
  intros _. exists "false". split; [reflexivity|discriminate].
Defined.

(** * Further properties *)

(** ** Exceptions *)

Lemma provider_errors_never_escape_witness :
  result (run AWS_EC2_001 Sample.describe_denied Sample.volume_alert 0)
  <> Raised (ClientErrorExn Sample.denied).
Proof.
  exact (provider_errors_never_escape AWS_EC2_001 Sample.describe_denied
           Sample.volume_alert 0 Sample.denied).
Defined.

Lemma for_attrib_in_raises attribs :
  forall logging st x st',
    ELB_015.for_attrib_in attribs logging st = (Raised x, st') ->
    x = KeyError "Key" \/ x = KeyError "Value".
Proof.
  induction attribs as [|a rest IH]; intros logging st x st'; cbn.
  - discriminate.
  - unfold bind, subscript. destruct (elbv2.Key a) as [k|]; cbn.
    + destruct (k =? "access_logs.s3.enabled").
      * destruct (elbv2.Value a) as [v|]; cbn; [apply IH|].
        intros H. inversion H. now right.
      * apply IH.
    + intros H. inversion H. now left.
Qed.

(** X2: the unguarded-looking reads of a first element are guarded: the
    snapshot and the database runbook never raise [IndexError], and the
    [KeyError] for [PubliclyAccessible] and the one for [LoadBalancerArn]
    never leave their runbooks. *)
Theorem guarded_lookups_never_raise :
  forall session alert today,
    result (run AWS_EC2_001 session alert today) <> Raised IndexError
    /\ result (run AWS_RDS_005 session alert today) <> Raised IndexError
    /\ result (run AWS_RDS_005 session alert today) <> Raised (KeyError "PubliclyAccessible")
    /\ result (run AWS_ELB_015 session alert today) <> Raised (KeyError "LoadBalancerArn").
Proof.
  intros session alert today. repeat split; explore; try discriminate.
  all: intros Hraised; inversion Hraised; subst;
    match goal with
    | H : ELB_015.for_attrib_in _ _ _ = (Raised _, _) |- _ =>
        apply for_attrib_in_raises in H; destruct H as [H|H]; discriminate H
    end.
Qed.

(** X3: when the [IndexError] of a split or of an index, or the [KeyError]
    for an entry read from the answer to a read-only call, leaves an entry
    point, no mutating call was made.  The [KeyError] for [SnapshotId] is
    the one that comes after a mutation: a snapshot was created. *)
Theorem reading_exceptions_precede_mutation :
  forall rb session alert today x,
    result (run rb session alert today) = Raised x ->
    (In x raised_on_reading ->
     attempted mutating (run rb session alert today) = false)
    /\ (x = KeyError "SnapshotId" ->
        rb = AWS_EC2_001
        /\ attempted creates_snapshot (run rb session alert today) = true).
Proof.
  intros rb session alert today x. unfold attempted.
  destruct rb; explore; intros Hraised; try discriminate Hraised;
    inversion Hraised; subst; (split; [intros Hin | intros Hid]);
    try reflexivity; try discriminate Hid; try (now split).
  all: try (cbn [raised_on_reading In] in Hin; exfalso; intuition discriminate).
  all: match goal with
       | H : ELB_015.for_attrib_in _ _ _ = (Raised _, _) |- _ =>
           apply for_attrib_in_raises in H; destruct H as [H|H]; inversion H; subst;
           discriminate Hid
       end.
Qed.

Lemma reading_exceptions_precede_mutation_witness :
  (In (KeyError "DBInstanceIdentifier") raised_on_reading ->
   attempted mutating (run AWS_RDS_005 Sample.public_unnamed Sample.database_alert 0) = false)
  /\ (KeyError "DBInstanceIdentifier" = KeyError "SnapshotId" ->
      AWS_RDS_005 = AWS_EC2_001
      /\ attempted creates_snapshot
           (run AWS_RDS_005 Sample.public_unnamed Sample.database_alert 0) = true).
Proof.
  apply (reading_exceptions_precede_mutation AWS_RDS_005 Sample.public_unnamed
           Sample.database_alert 0).
  reflexivity.
Defined.

(** ** Failed and successful mutations *)

(** X4: in every runbook, a failed mutating call, other than a bucket
    creation refused because the bucket is there, is the last call of the
    invocation; the invocation returns, and the last line it prints is the
    provider's message, or the hint on the account id of the region when
    the message of a failed attribute modification has [Access Denied] in it
    or that of a failed policy attachment has [Invalid principal] in it. *)
Theorem write_failure_is_printed_and_final :
  forall rb session alert today c e,
    In (Failed c e) (events (run rb session alert today)) ->
    mutating c = true ->
    bucket_was_there c e = false ->
    result (run rb session alert today) = Returned tt
    /\ (exists before, events (run rb session alert today) = (before ++ [Failed c e])%list)
    /\ (exists lines,
          printed (run rb session alert today)
          = (lines ++ [failure_line (region alert) c e])%list).
Proof.
  intros rb session alert today c e Hin Hwrite Hnot; revert Hin.
  destruct rb; explore; intros Hin; pick_event Hin; try discriminate Hwrite;
    unfold bucket_was_there in Hnot; cbn [creates_bucket andb] in Hnot;
    unfold failure_line; cbn [modifies_attributes puts_policy andb];
    repeat match goal with
           | H : (Code _ =? _) = _ |- _ => rewrite H in Hnot
           | H : contains _ _ = _ |- _ => rewrite H
           end;
    try discriminate Hnot;
    (split; [reflexivity|]; split).
  all: first [ eexists []; reflexivity | eexists [_]; reflexivity
             | eexists [_; _]; reflexivity | eexists [_; _; _]; reflexivity
             | eexists [_; _; _; _]; reflexivity | eexists [_; _; _; _; _]; reflexivity ].
Qed.

Lemma write_failure_is_printed_and_final_witness :
  result (run AWS_ELB_013 Sample.creation_denied Sample.classic_alert 0) = Returned tt
  /\ (exists before,
        events (run AWS_ELB_013 Sample.creation_denied Sample.classic_alert 0)
        = (before ++ [Failed (S3_CreateBucket "private" Sample2.classic_bucket (Some "us-west-2"))
                             Sample.denied])%list)
  /\ (exists lines,
        printed (run AWS_ELB_013 Sample.creation_denied Sample.classic_alert 0)
        = (lines ++ ["User is not authorized to perform this operation"])%list).
Proof.
  apply (write_failure_is_printed_and_final AWS_ELB_013 Sample.creation_denied
           Sample.classic_alert 0
           (S3_CreateBucket "private" Sample2.classic_bucket (Some "us-west-2")) Sample.denied).
  - right. right. left. reflexivity.
  - reflexivity.
  - reflexivity.
Defined.

(** X5: in both load-balancer runbooks the first line printed tells what
    became of the bucket creation: that a new bucket was created, that an
    existing bucket is used, that an existing bucket of the account is used,
    or the provider's message. *)
Theorem bucket_creation_is_the_first_line :
  forall rb session alert today ev line,
    In ev (events (run rb session alert today)) ->
    bucket_line ev = Some line ->
    exists lines, printed (run rb session alert today) = line :: lines.
Proof.
  intros rb session alert today ev line Hin Hline; revert Hin.
  destruct rb; explore; intros Hin; cbn [In] in Hin;
    repeat match type of Hin with
           | _ \/ _ => destruct Hin as [Hin|Hin]
           end;
    try contradiction; subst ev; cbn [bucket_line] in Hline; try discriminate Hline;
    repeat match goal with
           | H : (Code _ =? _) = _ |- _ => rewrite H in Hline
           end;
    inversion Hline; subst; eexists; reflexivity.
Qed.

Lemma bucket_creation_is_the_first_line_witness :
  exists lines,
    printed (run AWS_ELB_013 Sample.bucket_owned Sample.classic_alert 0)
    = ("Using already owned and existing S3 bucket: " ++ Sample2.classic_bucket) :: lines.
Proof.
  apply (bucket_creation_is_the_first_line AWS_ELB_013 Sample.bucket_owned
           Sample.classic_alert 0
           (Failed (S3_CreateBucket "private" Sample2.classic_bucket (Some "us-west-2"))
                   Sample.owned)).
  - right. right. left. reflexivity.
  - reflexivity.
Defined.

(** X6: no runbook calls a provider operation twice in one invocation;
    nothing is tried again. *)
Theorem no_operation_is_repeated :
  forall rb session alert today,
    NoDup (map operation (calls (run rb session alert today))).
Proof.
  intros rb session alert today.
  destruct rb; explore; cbn [map operation];
    repeat (constructor; [cbn [In]; intuition discriminate|]); constructor.
Qed.

(** X7: a modification that succeeded is reported: the last line printed
    names the database instance or the load balancer it was made on. *)
Theorem successful_modification_is_reported :
  forall rb session alert today c line,
    In (Succeeded c) (events (run rb session alert today)) ->
    success_line c = Some line ->
    exists lines, printed (run rb session alert today) = (lines ++ [line])%list.
Proof.
  intros rb session alert today c line Hin Hline; revert Hin.
  destruct rb; explore; intros Hin; pick_event Hin;
    cbn [success_line assoc String.eqb Ascii.eqb Bool.eqb] in Hline;
    try discriminate Hline; inversion Hline; subst.
  all: first [ eexists []; reflexivity | eexists [_]; reflexivity
             | eexists [_; _]; reflexivity ].
Qed.

Lemma successful_modification_is_reported_witness :
  exists lines,
    printed (run AWS_RDS_005 Sample.public_named Sample.database_alert 0)
    = (lines ++ ["Removed public attribute from RDS instance mydb."])%list.
Proof.
  apply (successful_modification_is_reported AWS_RDS_005 Sample.public_named
           Sample.database_alert 0 (RDS_ModifyDBInstance "mydb" false)).
  - right. left. reflexivity.
  - reflexivity.
Defined.

(** ** What the load-balancer runbooks mutate *)

(** X8: every mutating call of a load-balancer runbook is about one bucket,
    named by the literal of the runbook, an account id and the region of the
    alert, and about the load balancer named in the resource id: the bucket
    is created private, with its location constraint unless the region is
    us-east-1; the object key is the name followed by a slash; the policy is
    the one built for this bucket, account and region; the modification
    turns logging on to this bucket with the name as prefix (and, for the
    classic load balancer, an interval of 60). *)
Theorem mutations_target_one_bucket :
  forall rb session alert today,
    rb = AWS_ELB_013 \/ rb = AWS_ELB_015 ->
    attempted mutating (run rb session alert today) = true ->
    exists elb_name account_id,
      nth_error (split "/" (resource_id alert)) (name_segment rb) = Some elb_name
      /\ forall c,
           In c (calls (run rb session alert today)) ->
           targets (region alert)
                   (bucket_prefix rb ++ account_id ++ "-" ++ region alert)
                   elb_name account_id c.
Proof.
  intros rb session alert today [-> | ->]; unfold attempted;
    cbn [name_segment bucket_prefix];
    explore; cbn [existsb mutating orb]; intros Hmutated; try discriminate Hmutated;
    do 2 eexists; (split; [reflexivity|]);
    intros c Hin; cbn [In] in Hin;
    repeat match type of Hin with
           | _ \/ _ => destruct Hin as [Hin|Hin]
           end;
    try contradiction; subst c; cbn [targets String.append]; unfold location_of;
    repeat match goal with
           | H : (region alert =? _) = _ |- _ => rewrite H
           end;
    repeat split; reflexivity.
Qed.

Lemma mutations_target_one_bucket_witness :
  exists elb_name account_id,
    nth_error (split "/" (resource_id Sample.classic_alert)) 1 = Some elb_name
    /\ forall c,
         In c (calls (run AWS_ELB_013 Sample.logging_off Sample.classic_alert 0)) ->
         targets "us-west-2" ("elblogs-" ++ account_id ++ "-" ++ "us-west-2")
                 elb_name account_id c.
Proof.
  apply (mutations_target_one_bucket AWS_ELB_013 Sample.logging_off Sample.classic_alert 0).
  - left. reflexivity.
  - reflexivity.
Defined.

(** ** The classic load balancer, start to end *)

(** X9: a classic alert whose resource id has [elb_name] as second path
    segment, an attribute answer with [AccessLog.Enabled] false, a caller
    identity with an account other than the literal [fail], and bucket
    provisioning that succeeds: the runbook asks for the attributes and the
    identity, creates the bucket [elblogs-<account>-<region>], puts an object
    at [<elb_name>/], attaches the policy and turns logging on to that bucket
    with interval 60 and prefix [elb_name]. *)
Theorem ELB_013_enables_logging :
  forall session alert today elb_name described attribs logging identity account,
    nth_error (split "/" (resource_id alert)) 1 = Some elb_name ->
    elb.on_describe_load_balancer_attributes (client_elb session (region alert)) elb_name
      = Success described ->
    elb.LoadBalancerAttributes_of described = Some attribs ->
    elb.AccessLog_of attribs = Some logging ->
    elb.Enabled logging = Some false ->
    sts.on_get_caller_identity (client_sts session (region alert)) = Success identity ->
    sts.Account identity = Some account ->
    account <> "fail" ->
    let bucket := "elblogs-" ++ account ++ "-" ++ region alert in
    let policy := BucketTemplate.BucketPolicy bucket account (region alert) in
    s3.on_create_bucket (client_s3 session (region alert)) "private" bucket
      (location_of (region alert)) = Success tt ->
    s3.on_put_object (client_s3 session (region alert)) bucket (elb_name ++ "/") = Success tt ->
    s3.on_put_bucket_policy (client_s3 session (region alert)) bucket policy = Success tt ->
    calls (run AWS_ELB_013 session alert today)
    = [ ELB_DescribeLoadBalancerAttributes elb_name;
        STS_GetCallerIdentity;
        S3_CreateBucket "private" bucket (location_of (region alert));
        S3_PutObject bucket (elb_name ++ "/");
        S3_PutBucketPolicy bucket policy;
        ELB_ModifyLoadBalancerAttributes elb_name
          (mkAccessLogSetting true bucket 60 elb_name) ]
    /\ result (run AWS_ELB_013 session alert today) = Returned tt.
Proof.
  intros session alert today elb_name described attribs logging identity account
         Hname Hdescribe Hattribs Hlogging Henabled Hidentity Haccount Hreal
         bucket policy Hcreate Hobject Hpolicy.
  apply String.eqb_neq in Hreal.
  unfold location_of in *. subst bucket policy.
  unfold_runbooks. rewrite Hname; simp.
  rewrite Hdescribe; simp. rewrite Hattribs; simp. rewrite Hlogging; simp.
  rewrite Henabled; simp. rewrite Hidentity; simp. rewrite Haccount; simp.
  rewrite Hreal; simp.
  cbn [String.append] in Hcreate, Hobject, Hpolicy.
  destruct (region alert =? "us-east-1"); rewrite Hcreate; simp;
    rewrite Hobject; simp; rewrite Hpolicy; simp;
    match goal with
    | |- context [elb.on_modify_load_balancer_attributes ?c ?a ?l] =>
        destruct (elb.on_modify_load_balancer_attributes c a l)
    end; simp;
    try match goal with
        | |- context [contains ?n ?h] => destruct (contains n h)
        end; simp; split; reflexivity.
Qed.

Lemma ELB_013_enables_logging_witness :
  calls (run AWS_ELB_013 Sample.logging_off Sample.classic_alert 0)
  = [ ELB_DescribeLoadBalancerAttributes "myelb";
      STS_GetCallerIdentity;
      S3_CreateBucket "private" Sample2.classic_bucket (Some "us-west-2");
      S3_PutObject Sample2.classic_bucket "myelb/";
      S3_PutBucketPolicy Sample2.classic_bucket
        (BucketTemplate.BucketPolicy Sample2.classic_bucket "111122223333" "us-west-2");
      ELB_ModifyLoadBalancerAttributes "myelb"
        (mkAccessLogSetting true Sample2.classic_bucket 60 "myelb") ]
  /\ result (run AWS_ELB_013 Sample.logging_off Sample.classic_alert 0) = Returned tt.
Proof.
  apply (ELB_013_enables_logging Sample.logging_off Sample.classic_alert 0 "myelb"
           (elb.mkDescribeResult
              (Some (elb.mkLoadBalancerAttributes (Some (elb.mkAccessLog (Some false))))))
           (elb.mkLoadBalancerAttributes (Some (elb.mkAccessLog (Some false))))
           (elb.mkAccessLog (Some false))
           (sts.mkCallerIdentity (Some "111122223333")) "111122223333");
    try reflexivity.
  discriminate.
Defined.

(** ** The snapshot runbook, start to end *)

(** X10: when [describe_snapshots] answers with its list and the first
    snapshot listed, if any, has its [StartTime], the runbook makes one
    [create_snapshot] call, for the volume of the alert and with the
    description [Autoremediate snapshot], if the list is empty or the first
    snapshot listed is fifteen days old or more, and none otherwise; it makes
    no other call after the describe. *)
Theorem EC2_001_calls :
  forall session alert today response snapshots,
    ec2.on_describe_snapshots (client_ec2 session (region alert))
      [mkFilter "volume-id" [resource_id alert]] = Success response ->
    ec2.Snapshots response = Some snapshots ->
    (forall first rest, snapshots = first :: rest -> ec2.StartTime first <> None) ->
    calls (run AWS_EC2_001 session alert today)
    = EC2_DescribeSnapshots [mkFilter "volume-id" [resource_id alert]]
      :: (if first_listed_is_due today snapshots
          then [EC2_CreateSnapshot (resource_id alert) "Autoremediate snapshot"]
          else []).
Proof.
  intros session alert today response snapshots Hdescribe Hlisted Hstart.
  assert (Hfirst : forall first rest, snapshots = first :: rest ->
                   exists start, ec2.StartTime first = Some start).
  { intros first rest Heq. specialize (Hstart first rest Heq).
    destruct (ec2.StartTime first) as [start|]; [now exists start | contradiction]. }
  clear Hstart. unfold first_listed_is_due.
  explore; unify_facts;
    try (destruct (Hfirst _ _ eq_refl) as [start Hsome]; unify_facts);
    unfold EC2_001.snapshot_age in *;
    repeat match goal with
           | H : (_ >=? _)%Z = _ |- _ => rewrite Z.geb_leb in H
           end;
    repeat match goal with
           | H : ec2.StartTime _ = _ |- _ => rewrite H
           | H : (_ <=? _)%Z = _ |- _ => rewrite H
           end;
    try reflexivity; discriminate.
Qed.

Lemma EC2_001_calls_witness :
  calls (run AWS_EC2_001 Sample.stale_listed_first Sample.volume_alert 738200)
  = [ EC2_DescribeSnapshots [mkFilter "volume-id" ["vol-0abc"]];
      EC2_CreateSnapshot "vol-0abc" "Autoremediate snapshot" ].
Proof.
  apply (EC2_001_calls Sample.stale_listed_first Sample.volume_alert 738200
           (ec2.mkDescribeSnapshotsResult
              (Some [Sample.snapshot_on 738180; Sample.snapshot_on 738199]))
           [Sample.snapshot_on 738180; Sample.snapshot_on 738199]);
    try reflexivity.
  intros first rest Heq. inversion Heq. discriminate.
Defined.

(** ** Alerts without a load-balancer name *)

Lemma split_length (sep : ascii) (s : string) :
  length (split sep s) = S (occurrences sep s).
Proof.
  induction s as [|c rest IH]; cbn; [reflexivity|].
  destruct (Ascii.eqb c sep); cbn; [now rewrite IH|].
  destruct (split sep rest) as [|w ws]; cbn in *; [discriminate|exact IH].
Qed.

(** X11: a load-balancer runbook raises [IndexError] before it calls the
    provider exactly when the resource id of the alert has too few slashes
    for the name to be there: none for the classic runbook, fewer than two
    for the elbv2 runbook. *)
Theorem alert_without_name_is_rejected :
  forall rb session alert today,
    rb = AWS_ELB_013 \/ rb = AWS_ELB_015 ->
    run rb session alert today = mkRun (Raised IndexError) [] []
    <-> (occurrences "/" (resource_id alert) < name_segment rb)%nat.
Proof.
  intros rb session alert today Hrb.
  pose proof (split_length "/" (resource_id alert)) as Hlength.
  destruct Hrb as [-> | ->]; cbn [name_segment]; revert Hlength;
    explore; cbn [length]; intros Hlength; split; intros H;
    try discriminate H; try lia; try reflexivity.
Qed.

Lemma alert_without_name_is_rejected_witness :
  run AWS_ELB_015 Sample.quiet (mkAlert "app/myelb" "us-west-2") 0
  = mkRun (Raised IndexError) [] [].
Proof.
  apply (alert_without_name_is_rejected AWS_ELB_015 Sample.quiet
           (mkAlert "app/myelb" "us-west-2") 0).
  - right. reflexivity.
  - cbn. lia.
Defined.

(** ** The attribute list of the elbv2 runbook *)

Lemma find_last {A : Type} (f : A -> bool) (l : list A) (a : A) :
  find f (l ++ [a])%list
  = match find f l with
    | Some found => Some found
    | None => if f a then Some a else None
    end.
Proof.
  induction l as [|b rest IH]; cbn; [reflexivity|].
  destruct (f b); [reflexivity|exact IH].
Qed.

Lemma for_attrib_in_returns_last_setting :
  forall attribs,
    Forall readable_attribute attribs ->
    forall logging st,
      ELB_015.for_attrib_in attribs logging st
      = (Returned match last_setting attribs with
                  | Some value => value
                  | None => logging
                  end, st).
Proof.
  unfold last_setting. induction 1 as [|a rest (key & Hkey & Hvalue) Hrest IH];
    intros logging st; cbn [ELB_015.for_attrib_in]; [reflexivity|].
  assert (Hfound : forall found,
             find is_enabled_entry (rev rest) = Some found -> elbv2.Value found <> None).
  { intros found Hfind. apply find_some in Hfind. destruct Hfind as [Hin Hentry].
    apply in_rev in Hin. rewrite Forall_forall in Hrest.
    destruct (Hrest found Hin) as (k & Hk & Hv). apply Hv.
    unfold is_enabled_entry in Hentry. rewrite Hk in Hentry.
    now apply String.eqb_eq. }
  unfold bind, subscript. rewrite Hkey. cbn. rewrite find_last.
  unfold is_enabled_entry at 2. rewrite Hkey.
  destruct (String.eqb_spec key "access_logs.s3.enabled") as [Heq|_].
  - destruct (elbv2.Value a) as [value|] eqn:Hsome; [|now destruct (Hvalue Heq)].
    cbn. rewrite IH.
    destruct (find is_enabled_entry (rev rest)) as [found|]; [|now rewrite Hsome].
    specialize (Hfound found eq_refl).
    destruct (elbv2.Value found); [reflexivity|contradiction].
  - rewrite IH.
    destruct (find is_enabled_entry (rev rest)) as [found|]; reflexivity.
Qed.

(** X12: when the elbv2 runbook has found the load balancer and its
    attribute list, whose entries have their [Key], and their [Value] when
    the key is [access_logs.s3.enabled], it goes on to create the bucket
    unless the last entry with that key has the value [true]: of two entries
    with the key the later one decides, and without such an entry logging
    counts as off. *)
Theorem ELB_015_last_entry_decides :
  forall session alert today elb_name balancers first rest arn account attributes attribs,
    nth_error (split "/" (resource_id alert)) 2 = Some elb_name ->
    elbv2.on_describe_load_balancers (client_elbv2 session (region alert)) [elb_name]
      = Success balancers ->
    elbv2.LoadBalancers balancers = Some (first :: rest) ->
    elbv2.LoadBalancerArn first = Some arn ->
    nth_error (split ":" arn) 4 = Some account ->
    elbv2.on_describe_load_balancer_attributes (client_elbv2 session (region alert)) arn
      = Success attributes ->
    elbv2.Attributes attributes = Some attribs ->
    Forall readable_attribute attribs ->
    attempted creates_bucket (run AWS_ELB_015 session alert today)
    = match last_setting attribs with
      | Some value => negb (value =? "true")
      | None => true
      end.
Proof.
  intros session alert today elb_name balancers first rest arn account attributes attribs
         Hname Hlookup Hlisted Harn Haccount Hdescribe Hattribs Hreadable.
  unfold attempted.
  remember (run AWS_ELB_015 session alert today) as r eqn:Hr. revert Hr.
  unfold_runbooks.
  rewrite Hname; cbn [fst snd log trace app]. rewrite Hlookup; cbn [fst snd log trace app].
  rewrite Hlisted; cbn [fst snd log trace app].
  change (nth_error (first :: rest) 0) with (Some first); cbn [fst snd log trace app].
  rewrite Harn; cbn [fst snd log trace]. rewrite Haccount; simp. rewrite Hdescribe; simp.
  rewrite Hattribs; simp.
  rewrite (for_attrib_in_returns_last_setting attribs Hreadable).
  destruct (last_setting attribs) as [value|]; simp;
    [destruct (value =? "true"); simp|];
    walk; intros ->; reflexivity.
Qed.

Lemma ELB_015_last_entry_decides_witness :
  attempted creates_bucket (run AWS_ELB_015 Sample2.true_then_false Sample.v2_alert 0) = true.
Proof.
  apply (ELB_015_last_entry_decides Sample2.true_then_false Sample.v2_alert 0 "myelb"
           (elbv2.mkDescribeLoadBalancersResult (Some [elbv2.mkLoadBalancer (Some Sample.myelb_arn)]))
           (elbv2.mkLoadBalancer (Some Sample.myelb_arn)) [] Sample.myelb_arn "111122223333"
           (elbv2.mkDescribeAttributesResult
              (Some [Sample2.enabled_entry "true"; Sample2.enabled_entry "false"]))
           [Sample2.enabled_entry "true"; Sample2.enabled_entry "false"]);
    try reflexivity.
  repeat constructor; exists "access_logs.s3.enabled"; (split; [reflexivity|discriminate]).
Defined.

(** X13: when the lookup of the elbv2 runbook answers with no load balancer,
    or with a first record without [LoadBalancerArn], the runbook prints that
    it cannot find the ARN of the load balancer and makes no other call. *)
Theorem ELB_015_unknown_load_balancer_is_reported :
  forall session alert today elb_name response balancers,
    nth_error (split "/" (resource_id alert)) 2 = Some elb_name ->
    elbv2.on_describe_load_balancers (client_elbv2 session (region alert)) [elb_name]
      = Success response ->
    elbv2.LoadBalancers response = Some balancers ->
    match balancers with
    | [] => True
    | first :: _ => elbv2.LoadBalancerArn first = None
    end ->
    run AWS_ELB_015 session alert today
    = mkRun (Returned tt)
            ["Error: Unable to find the ARN for Application ELB " ++ elb_name ++ "."]
            [Succeeded (ELBv2_DescribeLoadBalancers [elb_name])].
Proof.
  intros session alert today elb_name response balancers Hname Hlookup Hlisted Harn.
  unfold_runbooks. rewrite Hname; cbn [fst snd log trace app].
  rewrite Hlookup; cbn [fst snd log trace app]. rewrite Hlisted; cbn [fst snd log trace app].
  destruct balancers as [|first rest]; cbn [nth_error]; [reflexivity|].
  rewrite Harn. reflexivity.
Qed.

Lemma ELB_015_unknown_load_balancer_is_reported_witness :
  run AWS_ELB_015 Sample2.nothing_found Sample.v2_alert 0
  = mkRun (Returned tt)
          ["Error: Unable to find the ARN for Application ELB myelb."]
          [Succeeded (ELBv2_DescribeLoadBalancers ["myelb"])].
Proof.
  apply (ELB_015_unknown_load_balancer_is_reported Sample2.nothing_found Sample.v2_alert 0
           "myelb" (elbv2.mkDescribeLoadBalancersResult (Some [])) []);
    first [reflexivity | exact I].
Defined.

(** ** The account of an unlisted region *)

(** X14: the account id [123456789012] stands in the policy exactly for the
    regions the table does not list; no listed region has it. *)
Theorem placeholder_marks_unlisted_regions :
  forall region,
    elb_account_id region = "123456789012"
    <-> assoc region documented_accounts = None.
Proof.
  intros region. unfold elb_account_id, documented_accounts, assoc.
  repeat match goal with
         | |- context [String.eqb region ?s] => destruct (String.eqb region s)
         end; split; intros H; try reflexivity; discriminate H.
Qed.

(** ** Reading before writing *)

(** X15: a runbook that makes a mutating call has first made a call that
    only reads, and that call succeeded. *)
Theorem mutation_follows_a_successful_read :
  forall rb session alert today,
    attempted mutating (run rb session alert today) = true ->
    exists c later,
      events (run rb session alert today) = Succeeded c :: later
      /\ mutating c = false.
Proof.
  intros rb session alert today. unfold attempted.
  destruct rb; explore; cbn [existsb mutating orb]; intros Hmutated;
    try discriminate Hmutated; do 2 eexists; split; reflexivity.
Qed.

Lemma mutation_follows_a_successful_read_witness :
  exists c later,
    events (run AWS_EC2_001 Sample.quiet Sample.volume_alert 0) = Succeeded c :: later
    /\ mutating c = false.
Proof.
  apply (mutation_follows_a_successful_read AWS_EC2_001 Sample.quiet Sample.volume_alert 0).
  reflexivity.
Defined.
